(** * AR-Infused Hotel Universe API: booking quote, concierge and seeding

    A shallow embedding of the request handlers of [main.py] (with the
    pydantic models of [schemas.py]) and the properties the specification
    states about them.

    Python values are modelled as follows: [int] is [Z]; [float] is IEEE
    binary64, i.e. Rocq's primitive [float]; [str] is [string]; [None]-able
    values are [option]; a raised exception is the [Raises] branch of
    [outcome]; MongoDB documents are finite maps from field names to
    [value]s, and a collection is the list of its documents in stored
    order. *)

From Stdlib Require Import ZArith Floats Ascii String.
From stdpp Require Import gmap strings list.

Local Open Scope string_scope.
Local Open Scope Z_scope.

Set Warnings "-register-all,-inexact-float".

(** ** Exceptions and outcomes *)

Inductive exn :=
| ValueError
| TypeError
| AttributeError
| OverflowError
| HTTPException (status_code : Z) (detail : string).

Inductive outcome (A : Type) :=
| Returns (a : A)
| Raises (e : exn).
Arguments Returns {A} a.
Arguments Raises {A} e.

#[export] Instance outcome_ret : MRet outcome := λ A a, Returns a.
#[export] Instance outcome_bind : MBind outcome := λ A B f m,
  match m with
  | Returns a => f a
  | Raises e => Raises e
  end.

(** The status line the ASGI server sends for a handler's outcome: an
    [HTTPException] carries its own status, every other exception that
    leaves the handler is answered with 500 Internal Server Error. *)
Definition http_status {A} (o : outcome A) : Z :=
  match o with
  | Returns _ => 200
  | Raises (HTTPException status_code _) => status_code
  | Raises _ => 500
  end.

Definition is_client_error {A} (o : outcome A) : bool :=
  (400 <=? http_status o) && (http_status o <? 500).

(** ** Python floats *)

(** [float(n)] as done implicitly by [float * int] and [float + int]: the
    nearest binary64 value (ties to even), [OverflowError] when the integer
    rounds beyond the largest finite double. *)
Definition float_of_int (n : Z) : outcome float :=
  if Z.abs n <? 2 ^ 1024 - 2 ^ 970
  then Returns (SF2Prim (binary_normalize prec emax n 0 false))
  else Raises OverflowError.

Definition round_half_even (num den : Z) : Z :=
  let q := num / den in
  match 2 * (num mod den) ?= den with
  | Lt => q
  | Gt => q + 1
  | Eq => if Z.even q then q else q + 1
  end.

(** [round(x, 2)] on a float: the exact binary value is rounded to a whole
    number of hundredths (ties to even), and the decimal result is converted
    back to the nearest double; zeros, infinities and NaN are returned
    unchanged. *)
Definition round2 (x : float) : float :=
  match Prim2SF x with
  | S754_finite s m e =>
      let hundredths :=
        if 0 <=? e then Z.pos m * 2 ^ e * 100
        else round_half_even (Z.pos m * 100) (2 ^ (- e)) in
      match hundredths with
      | Z.pos p =>
          SF2Prim (SFdiv prec emax (S754_finite s p 0) (S754_finite false 100 0))
      | _ => SF2Prim (S754_zero s)
      end
  | _ => x
  end.

(** ** [datetime.timedelta] *)

Module timedelta.

Record t := mk { days : Z; seconds : Z; microseconds : Z }.

#[global] Instance eq_dec : EqDecision t.
Proof. solve_decision. Defined.

(** The constructor normalises its integer arguments so that
    [0 <= seconds < 86400] and [0 <= microseconds < 1000000]. *)
Definition new (d s us : Z) : t :=
  let d := d + s / 86400 in
  let s := s mod 86400 in
  let s' := us / 1000000 in
  let us := us mod 1000000 in
  let d := d + s' / 86400 in
  let s := s + s' mod 86400 in
  let d := d + s / 86400 in
  let s := s mod 86400 in
  mk d s us.

Definition add (a b : t) : t :=
  new (days a + days b) (seconds a + seconds b)
      (microseconds a + microseconds b).

Definition sub (a b : t) : t :=
  new (days a - days b) (seconds a - seconds b)
      (microseconds a - microseconds b).

Definition mul (a : t) (k : Z) : t :=
  new (days a * k) (seconds a * k) (microseconds a * k).

(** Comparison is that of the [(days, seconds, microseconds)] triples. *)
Definition leb (a b : t) : bool :=
  (days a <? days b)
  || ((days a =? days b)
      && ((seconds a <? seconds b)
          || ((seconds a =? seconds b)
              && (microseconds a <=? microseconds b)))).

Definition total_microseconds (a : t) : Z :=
  (days a * 86400 + seconds a) * 1000000 + microseconds a.

End timedelta.

(** ** [datetime.datetime] *)

Module datetime.

(** A datetime is naive ([tzinfo = None]) or aware; an aware one built by
    [fromisoformat] carries a fixed UTC offset. *)
Record t := mk {
  year : Z; month : Z; day : Z;
  hour : Z; minute : Z; second : Z; microsecond : Z;
  tzinfo : option timedelta.t
}.

Definition _is_leap (y : Z) : bool :=
  (y mod 4 =? 0) && (negb (y mod 100 =? 0) || (y mod 400 =? 0)).

Definition _DAYS_IN_MONTH (m : Z) : Z :=
  match m with
  | 1 => 31 | 2 => 28 | 3 => 31 | 4 => 30 | 5 => 31 | 6 => 30
  | 7 => 31 | 8 => 31 | 9 => 30 | 10 => 31 | 11 => 30 | 12 => 31
  | _ => -1
  end.

Definition _DAYS_BEFORE_MONTH (m : Z) : Z :=
  match m with
  | 1 => 0 | 2 => 31 | 3 => 59 | 4 => 90 | 5 => 120 | 6 => 151
  | 7 => 181 | 8 => 212 | 9 => 243 | 10 => 273 | 11 => 304 | 12 => 334
  | _ => -1
  end.

Definition _days_in_month (y m : Z) : Z :=
  if (m =? 2) && _is_leap y then 29 else _DAYS_IN_MONTH m.

Definition _days_before_year (y : Z) : Z :=
  let y := y - 1 in
  y * 365 + y / 4 - y / 100 + y / 400.

Definition _days_before_month (y m : Z) : Z :=
  _DAYS_BEFORE_MONTH m + (if (2 <? m) && _is_leap y then 1 else 0).

Definition _ymd2ord (y m d : Z) : Z :=
  _days_before_year y + _days_before_month y m + d.

Definition toordinal (dt : t) : Z := _ymd2ord (year dt) (month dt) (day dt).

(** Monday is 0 and Sunday is 6. *)
Definition weekday (dt : t) : Z := (toordinal dt + 6) mod 7.

Definition utcoffset (dt : t) : option timedelta.t := tzinfo dt.

(** [self - other] on two datetimes. *)
Definition sub (self other : t) : outcome timedelta.t :=
  let days1 := toordinal self in
  let days2 := toordinal other in
  let secs1 := second self + minute self * 60 + hour self * 3600 in
  let secs2 := second other + minute other * 60 + hour other * 3600 in
  let base := timedelta.new (days1 - days2) (secs1 - secs2)
                            (microsecond self - microsecond other) in
  match utcoffset self, utcoffset other with
  | None, None => Returns base
  | Some myoff, Some otoff =>
      if decide (myoff = otoff) then Returns base
      else Returns (timedelta.sub (timedelta.add base otoff) myoff)
  | _, _ => Raises TypeError
  end.

(** *** [datetime.fromisoformat]

    The documented grammar (Python 3.7 to 3.10; later versions accept
    further ISO 8601 forms as well) is
    [YYYY-MM-DD[*HH[:MM[:SS[.fff[fff]]]][+HH:MM[:SS[.ffffff]]]]], where [*]
    is any single character and the sign of the offset is [+] or [-]. *)

Definition digit (c : ascii) : option Z :=
  let n := Z.of_N (N_of_ascii c) in
  if (48 <=? n) && (n <=? 57) then Some (n - 48) else None.

Fixpoint parse_digits (n : nat) (acc : Z) (s : string) : option (Z * string) :=
  match n with
  | O => Some (acc, s)
  | S n' =>
      match s with
      | String c r => d ← digit c; parse_digits n' (10 * acc + d) r
      | EmptyString => None
      end
  end.

Definition expect (c : ascii) (s : string) : option string :=
  match s with
  | String c' r => if Ascii.eqb c c' then Some r else None
  | EmptyString => None
  end.

Definition _parse_isoformat_date (s : string) : option (Z * Z * Z * string) :=
  '(y, s) ← parse_digits 4 0 s;
  s ← expect "-" s;
  '(m, s) ← parse_digits 2 0 s;
  s ← expect "-" s;
  '(d, s) ← parse_digits 2 0 s;
  Some (y, m, d, s).

(** [.fff] or [.ffffff], after the dot. *)
Definition parse_fraction (s : string) : option Z :=
  match String.length s with
  | 3%nat =>
      '(f, _) ← parse_digits 3 0 s; Some (f * 1000)
  | 6%nat =>
      '(f, _) ← parse_digits 6 0 s; Some f
  | _ => None
  end.

(** [HH[:MM[:SS[.fff[fff]]]]], the whole of [s]. *)
Definition _parse_hh_mm_ss_ff (s : string) : option (Z * Z * Z * Z) :=
  '(hh, s) ← parse_digits 2 0 s;
  match s with
  | EmptyString => Some (hh, 0, 0, 0)
  | String c s =>
      if negb (Ascii.eqb c ":") then None else
      '(mm, s) ← parse_digits 2 0 s;
      match s with
      | EmptyString => Some (hh, mm, 0, 0)
      | String c s =>
          if negb (Ascii.eqb c ":") then None else
          '(ss, s) ← parse_digits 2 0 s;
          match s with
          | EmptyString => Some (hh, mm, ss, 0)
          | String c s =>
              if negb (Ascii.eqb c ".") then None else
              us ← parse_fraction s; Some (hh, mm, ss, us)
          end
      end
  end.

(** Splits the time string at its first [+] or [-]: the part before it, and
    the sign with the part after it. *)
Fixpoint split_tz (s : string) : string * option (Z * string) :=
  match s with
  | EmptyString => (EmptyString, None)
  | String c r =>
      if Ascii.eqb c "+" then (EmptyString, Some (1, r))
      else if Ascii.eqb c "-" then (EmptyString, Some (-1, r))
      else let '(t, z) := split_tz r in (String c t, z)
  end.

Definition _maxoffset : timedelta.t := timedelta.new 0 86400 (-1).
Definition _minoffset : timedelta.t := timedelta.mul _maxoffset (-1).

(** [timezone(offset)]: the offset must lie strictly between -24 and +24
    hours. *)
Definition timezone (offset : timedelta.t) : option timedelta.t :=
  if timedelta.leb _minoffset offset && timedelta.leb offset _maxoffset
  then Some offset else None.

Definition _parse_isoformat_time (tstr : string)
  : option (Z * Z * Z * Z * option timedelta.t) :=
  let '(timestr, tz) := split_tz tstr in
  '(hh, mm, ss, us) ← _parse_hh_mm_ss_ff timestr;
  match tz with
  | None => Some (hh, mm, ss, us, None)
  | Some (tzsign, tzstr) =>
      let len := String.length tzstr in
      if negb ((len =? 5) || (len =? 8) || (len =? 15))%nat then None else
      '(zh, zm, zs, zus) ← _parse_hh_mm_ss_ff tzstr;
      if (zh =? 0) && (zm =? 0) && (zs =? 0) && (zus =? 0)
      then Some (hh, mm, ss, us, Some (timedelta.new 0 0 0))
      else
        let td := timedelta.new 0 (zh * 3600 + zm * 60 + zs) zus in
        tzi ← timezone (timedelta.mul td tzsign);
        Some (hh, mm, ss, us, Some tzi)
  end.

(** The constructor's range checks on the date and time fields. *)
Definition _check_fields (dt : t) : bool :=
  (1 <=? year dt) && (year dt <=? 9999)
  && (1 <=? month dt) && (month dt <=? 12)
  && (1 <=? day dt) && (day dt <=? _days_in_month (year dt) (month dt))
  && (0 <=? hour dt) && (hour dt <=? 23)
  && (0 <=? minute dt) && (minute dt <=? 59)
  && (0 <=? second dt) && (second dt <=? 59)
  && (0 <=? microsecond dt) && (microsecond dt <=? 999999).

(** [None] stands for the [ValueError] the parser raises. *)
Definition fromisoformat (date_string : string) : option t :=
  '(y, m, d, rest) ← _parse_isoformat_date date_string;
  '(hh, mm, ss, us, tz) ←
    match rest with
    | EmptyString => Some (0, 0, 0, 0, None)
    | String _sep tstr => _parse_isoformat_time tstr
    end;
  let dt := mk y m d hh mm ss us tz in
  if _check_fields dt then Some dt else None.

End datetime.

(** ** Stored documents *)

(** The field values the handlers meet in a stored document. *)
Inductive value :=
| VNull
| VBool (b : bool)
| VInt (n : Z)
| VFloat (x : float)
| VStr (s : string)
| VObjectId (oid : string)
| VList (items : list value).

Abbreviation document := (gmap string value).

(** The database: its collections by name, each the list of its documents
    in stored order. A collection that was never written to is empty. *)
Abbreviation database := (gmap string (list document)).

(** [db[name].find({})] *)
Definition find_all (db : database) (name : string) : list document :=
  default [] (db !! name).

(** [db[name].count_documents({})] *)
Definition count_documents (db : database) (name : string) : Z :=
  Z.of_nat (length (find_all db name)).

(** ** [schemas.py] *)

Module Room.
Record t := mk {
  name : string;
  description : option string;
  price_per_night : float;
  view : option string;
  capacity : Z;
  features : list string;
  images : list string
}.
End Room.

Module Dish.
Record t := mk {
  name : string;
  category : string;
  description : option string;
  price : float;
  calories : option Z;
  allergens : list string;
  ingredients : list string;
  models : list string
}.
End Dish.

Module Experience.
Record t := mk {
  title : string;
  description : option string;
  category : string;
  duration_minutes : option Z;
  images : list string
}.
End Experience.

Module Preference.
Record t := mk {
  dietary : option (list string);
  mood : option string;
  budget_level : option string;
  language : option string;
  sleep_time : option string
}.
End Preference.

Module BookingRequest.
Record t := mk {
  room_id : option string;
  check_in : string;
  check_out : string;
  guests : Z;
  addons : list string
}.
End BookingRequest.

(** ** The [database] module *)

Definition opt_value {A} (f : A → value) (o : option A) : value :=
  match o with
  | Some a => f a
  | None => VNull
  end.

Definition str_list (l : list string) : value := VList (VStr <$> l).

(** Modelled from the spec: the document a model instance is stored as (the
    [database] module that turns a model into a document is not part of the
    sources); one field per attribute of the model, under the attribute's
    name. *)
Definition Room_document (r : Room.t) : document :=
  <["name" := VStr (Room.name r)]>
  (<["description" := opt_value VStr (Room.description r)]>
  (<["price_per_night" := VFloat (Room.price_per_night r)]>
  (<["view" := opt_value VStr (Room.view r)]>
  (<["capacity" := VInt (Room.capacity r)]>
  (<["features" := str_list (Room.features r)]>
  (<["images" := str_list (Room.images r)]> ∅)))))).

(** Modelled from the spec: as [Room_document], for a dish. *)
Definition Dish_document (d : Dish.t) : document :=
  <["name" := VStr (Dish.name d)]>
  (<["category" := VStr (Dish.category d)]>
  (<["description" := opt_value VStr (Dish.description d)]>
  (<["price" := VFloat (Dish.price d)]>
  (<["calories" := opt_value VInt (Dish.calories d)]>
  (<["allergens" := str_list (Dish.allergens d)]>
  (<["ingredients" := str_list (Dish.ingredients d)]>
  (<["models" := str_list (Dish.models d)]> ∅))))))).

(** Modelled from the spec: as [Room_document], for an experience. *)
Definition Experience_document (e : Experience.t) : document :=
  <["title" := VStr (Experience.title e)]>
  (<["description" := opt_value VStr (Experience.description e)]>
  (<["category" := VStr (Experience.category e)]>
  (<["duration_minutes" := opt_value VInt (Experience.duration_minutes e)]>
  (<["images" := str_list (Experience.images e)]> ∅)))).

(** Modelled from the spec: [create_document] of the [database] module, which
    is not part of the sources. It is the store adapter's
    [insert(collection, doc) -> id]: the document is added at the end of the
    named collection, no other collection changes, and the identity the
    store assigns is returned (here the position of the new document). *)
Definition create_document (name : string) (doc : document) (db : database)
  : database * Z :=
  let stored := find_all db name in
  (<[name := (stored ++ [doc])%list]> db, Z.of_nat (length stored)).

(** ** [main.py]: content seed endpoints *)

Module SeedResponse.
Record t := mk { inserted : Z }.
End SeedResponse.

Definition not_configured {A} : outcome A :=
  Raises (HTTPException 500 "Database not configured").

(** The loop [for x in xs: create_document(name, x); inserted += 1], on the
    documents of the models. *)
Fixpoint insert_each (name : string) (docs : list document)
    (db : database) (inserted : Z) : database * Z :=
  match docs with
  | [] => (db, inserted)
  | doc :: rest =>
      let '(db, _) := create_document name doc db in
      insert_each name rest db (inserted + 1)
  end.

Definition rooms : list Room.t := [
  Room.mk "Sky Suite"
    (Some "Penthouse with panoramic skyline views and holographic ambient lighting.")
    899 (Some "city") 2
    ["holographic desk"; "smart glass walls"; "immersive audio"]
    ["/images/rooms/sky-suite-1.jpg"];
  Room.mk "Ocean Nebula"
    (Some "Futuristic ocean-facing room with neon wave lighting and AR balcony guide.")
    659 (Some "ocean") 3
    ["neon wave lights"; "ar balcony guide"; "ai butler"]
    ["/images/rooms/ocean-nebula-1.jpg"]
].

Definition dishes : list Dish.t := [
  Dish.mk "Galactic Nigiri" "main"
    (Some "Bluefin with edible stardust and yuzu nebula gel.")
    42 (Some 320) ["fish"; "soy"] ["tuna"; "rice"; "yuzu"; "soy"]
    ["/models/dishes/nigiri.glb"];
  Dish.mk "Quantum Mousse" "dessert"
    (Some "Dark chocolate sphere with liquid light core.")
    18 (Some 540) ["dairy"] ["cacao"; "cream"; "sugar"]
    ["/models/dishes/mousse.glb"]
].

Definition exps : list Experience.t := [
  Experience.mk "Zero-Gravity Spa"
    (Some "Float therapy with ambient galaxy soundscapes.")
    "spa" (Some 60) ["/images/experiences/spa-zerog.jpg"];
  Experience.mk "Sky Lounge VR Tour"
    (Some "360° tour of the sky lounge with sunrise simulation.")
    "sky lounge" (Some 15) ["/images/experiences/sky-lounge.jpg"]
].

(** A seed handler takes the global [db] handle ([None] when the database
    was never configured) and returns its outcome with the handle after the
    call. *)
Definition seed_rooms (db : option database)
  : outcome SeedResponse.t * option database :=
  match db with
  | None => (not_configured, db)
  | Some store =>
      let existing := count_documents store "room" in
      if 0 <? existing then (Returns (SeedResponse.mk 0), db)
      else
        let '(store, inserted) :=
          insert_each "room" (Room_document <$> rooms) store 0 in
        (Returns (SeedResponse.mk inserted), Some store)
  end.

Definition seed_dishes (db : option database)
  : outcome SeedResponse.t * option database :=
  match db with
  | None => (not_configured, db)
  | Some store =>
      let existing := count_documents store "dish" in
      if 0 <? existing then (Returns (SeedResponse.mk 0), db)
      else
        let '(store, inserted) :=
          insert_each "dish" (Dish_document <$> dishes) store 0 in
        (Returns (SeedResponse.mk inserted), Some store)
  end.

Definition seed_experiences (db : option database)
  : outcome SeedResponse.t * option database :=
  match db with
  | None => (not_configured, db)
  | Some store =>
      let existing := count_documents store "experience" in
      if 0 <? existing then (Returns (SeedResponse.mk 0), db)
      else
        let '(store, inserted) :=
          insert_each "experience" (Experience_document <$> exps) store 0 in
        (Returns (SeedResponse.mk inserted), Some store)
  end.

(** The three seed operations, by the kind of content they seed. *)
Inductive kind := RoomKind | DishKind | ExperienceKind.

Definition collection_of (k : kind) : string :=
  match k with
  | RoomKind => "room"
  | DishKind => "dish"
  | ExperienceKind => "experience"
  end.

Definition fixtures (k : kind) : list document :=
  match k with
  | RoomKind => Room_document <$> rooms
  | DishKind => Dish_document <$> dishes
  | ExperienceKind => Experience_document <$> exps
  end.

Definition seed (k : kind) (db : option database)
  : outcome SeedResponse.t * option database :=
  match k with
  | RoomKind => seed_rooms db
  | DishKind => seed_dishes db
  | ExperienceKind => seed_experiences db
  end.

(** ** [main.py]: concierge *)

Module Suggestion.
Record t := mk { type : string; items : list document }.
End Suggestion.

Module ConciergeResponse.
Record t := mk { greeting : string; suggestions : list Suggestion.t }.
End ConciergeResponse.

(** The one-character strings a [str] yields when iterated. *)
Fixpoint chars (s : string) : list string :=
  match s with
  | EmptyString => []
  | String c r => String c EmptyString :: chars r
  end.

(** What a [for] over a stored value yields; numbers, booleans, nulls and
    object ids are not iterable. *)
Definition iterate (v : value) : outcome (list value) :=
  match v with
  | VList items => Returns items
  | VStr s => Returns (VStr <$> chars s)
  | _ => Raises TypeError
  end.

(** [menu[:3]] *)
Definition first3 {A} (l : list A) : list A := take 3 l.

Section Concierge.

(** [str.lower]. *)
Variable lower : string → string.

(** [a.lower()]: only strings have the method. *)
Definition lower_of (a : value) : outcome string :=
  match a with
  | VStr s => Returns (lower s)
  | _ => Raises AttributeError
  end.

(** [any(a.lower() in avoid for a in items)]; stops at the first hit. *)
Fixpoint any_avoided (avoid : gset string) (items : list value)
  : outcome bool :=
  match items with
  | [] => Returns false
  | a :: rest =>
      s ← lower_of a;
      if bool_decide (s ∈ avoid) then Returns true
      else any_avoided avoid rest
  end.

(** The loop over [menu] that appends the dishes free of every avoided
    allergen. *)
Fixpoint select_dishes (avoid : gset string) (menu : list document)
  : outcome (list document) :=
  match menu with
  | [] => Returns []
  | d :: rest =>
      items ← iterate (default (VList []) (d !! "allergens"));
      hit ← any_avoided avoid items;
      kept ← select_dishes avoid rest;
      Returns (if (hit : bool) then kept else d :: kept)
  end.

Definition concierge (db : option database) (pref : Preference.t)
  : outcome ConciergeResponse.t :=
  match db with
  | None => not_configured
  | Some store =>
      let menu := find_all store "dish" in
      let exps := find_all store "experience" in
      suggested_dishes ←
        match Preference.dietary pref with
        | Some (t :: ts) =>
            let avoid : gset string := list_to_set (lower <$> (t :: ts)) in
            select_dishes avoid menu
        | _ => Returns (first3 menu)
        end;
      let suggested_exps := first3 exps in
      let lang :=
        match Preference.language pref with
        | Some (String c l) => ", " +:+ String c l
        | _ => ""
        end in
      Returns (ConciergeResponse.mk
                 ("Welcome to the AR Hotel Universe" +:+ lang +:+ "!")
                 [Suggestion.mk "dish" suggested_dishes;
                  Suggestion.mk "experience" suggested_exps])
  end.

End Concierge.

(** ASCII letters in lower case, every other character unchanged: what
    [str.lower] does on ASCII text. *)
Definition ascii_lower_char (c : ascii) : ascii :=
  let n := N_of_ascii c in
  if ((65 <=? n) && (n <=? 90))%N then ascii_of_N (n + 32) else c.

Fixpoint ascii_lower (s : string) : string :=
  match s with
  | EmptyString => EmptyString
  | String c r => String (ascii_lower_char c) (ascii_lower r)
  end.

(** ** [main.py]: booking quote *)

Module Addon.
Record t := mk { name : string; price : Z }.
End Addon.

Module QuoteResponse.
Record t := mk {
  nightly_rate : float;
  nights : Z;
  addons : list Addon.t;
  total : float;
  suggestion : option string
}.
End QuoteResponse.

Definition addon_map : gmap string Z :=
  <["flowers" := 60]> (<["wine" := 120]> (<["candlelight" := 200]> ∅)).

(** [addon_map.get(a, 50)] *)
Definition addon_price (a : string) : Z := default 50 (addon_map !! a).

(** The builtin [sum] over integers, from 0 and left to right. *)
Definition int_sum (l : list Z) : Z := fold_left Z.add l 0.

(** [l or []] on a list. *)
Definition or_empty {A} (l : list A) : list A :=
  match l with
  | [] => []
  | _ :: _ => l
  end.

Definition parse_date (s : string) : outcome datetime.t :=
  match datetime.fromisoformat s with
  | Some d => Returns d
  | None => Raises ValueError
  end.

Definition sunday_hint : string :=
  "Consider arriving Sunday night for better rates".

Definition booking_quote (db : option database) (req : BookingRequest.t)
  : outcome QuoteResponse.t :=
  match db with
  | None => not_configured
  | Some _ =>
      d1 ← parse_date (BookingRequest.check_in req);
      d2 ← parse_date (BookingRequest.check_out req);
      delta ← datetime.sub d2 d1;
      let nights := Z.max 1 (timedelta.days delta) in
      let base_rate := 500%float in
      (* [if req.room_id: room = <lookup> if False else None]: the condition
         of the conditional expression is the constant [False], so the
         lookup is never evaluated, and [room] is not read below *)
      let weekend_boost :=
        if 4 <=? datetime.weekday d1 then 1.1%float else 1%float in
      let nightly_rate := round2 (base_rate * weekend_boost) in
      let addons :=
        (λ a, Addon.mk a (addon_price a))
          <$> or_empty (BookingRequest.addons req) in
      stay ← float_of_int nights;
      extras ← float_of_int (int_sum (Addon.price <$> addons));
      let total := round2 (nightly_rate * stay + extras) in
      let suggestion :=
        if datetime.weekday d1 =? 5 then Some sunday_hint else None in
      Returns (QuoteResponse.mk nightly_rate nights addons total suggestion)
  end.

(** ** [main.py]: public content APIs *)

(** A condition of a query filter: a plain value asks for equality,
    [{"$gte": n}] for a lower bound. *)
Inductive condition :=
| Equals (v : value)
| Gte (n : Z).

Abbreviation query := (gmap string condition).

Section Listing.

(** [get_documents(collection_name, filter)] of the [database] module, which
    is not part of the sources: the listing handlers return whatever it
    returns on the filter they build. *)
Variable get_documents : database → string → query → outcome (list document).

(** [{"category": category} if category else {}] *)
Definition category_filter (category : option string) : query :=
  match category with
  | Some (String c s) => <["category" := Equals (VStr (String c s))]> ∅
  | _ => ∅
  end.

Definition list_rooms (db : option database) (view : option string)
    (capacity : option Z) : outcome (list document) :=
  match db with
  | None => not_configured
  | Some store =>
      let filt : query := ∅ in
      let filt :=
        match view with
        | Some (String c s) => <["view" := Equals (VStr (String c s))]> filt
        | _ => filt
        end in
      let filt :=
        match capacity with
        | Some n => if n =? 0 then filt else <["capacity" := Gte n]> filt
        | None => filt
        end in
      get_documents store "room" filt
  end.

Definition list_menu (db : option database) (category : option string)
  : outcome (list document) :=
  match db with
  | None => not_configured
  | Some store => get_documents store "dish" (category_filter category)
  end.

Definition list_experiences (db : option database) (category : option string)
  : outcome (list document) :=
  match db with
  | None => not_configured
  | Some store => get_documents store "experience" (category_filter category)
  end.

End Listing.

(** ** [main.py]: database diagnostics *)

Module TestResponse.
Record t := mk {
  backend : string;
  database : string;
  database_url : string;
  database_name : string;
  connection_status : string;
  collections : list string
}.
End TestResponse.

(** ["✅ Set" if os.getenv(name) else "❌ Not Set"]: a variable that is
    unset or set to the empty string counts as not set. *)
Definition env_flag (environ : gmap string string) (name : string) : string :=
  match environ !! name with
  | Some (String _ _) => "✅ Set"
  | _ => "❌ Not Set"
  end.

Section Diagnostics.

(** [db.list_collection_names()]: the names, or the text [str(e)] of the
    exception the driver raised. *)
Variable list_collection_names : database → list string + string.

(** The handler catches every exception of the listing, so it always
    returns its response. *)
Definition test_database (environ : gmap string string)
    (db : option database) : TestResponse.t :=
  let url := env_flag environ "DATABASE_URL" in
  let name := env_flag environ "DATABASE_NAME" in
  match db with
  | None =>
      TestResponse.mk "✅ Running" "❌ Not Available" url name
        "Not Connected" []
  | Some store =>
      match list_collection_names store with
      | inl names =>
          TestResponse.mk "✅ Running" "✅ Connected & Working" url name
            "Connected" (take 10 names)
      | inr text =>
          TestResponse.mk "✅ Running"
            ("⚠️ Connected but error listing collections: "
             +:+ String.substring 0 80 text)
            url name "Connected" []
      end
  end.

End Diagnostics.

(** * The specification's vocabulary *)

(** ** The stay *)

(** A timedelta in normal form. *)
Definition normalised (x : timedelta.t) : Prop :=
  0 ≤ timedelta.seconds x < 86400 ∧ 0 ≤ timedelta.microseconds x < 1000000.

(** The wall-clock reading of a datetime, in microseconds since the start
    of day 0 of the proleptic Gregorian calendar. *)
Definition local_microseconds (dt : datetime.t) : Z :=
  (datetime.toordinal dt * 86400
   + datetime.hour dt * 3600 + datetime.minute dt * 60 + datetime.second dt)
  * 1000000 + datetime.microsecond dt.

Definition offset_microseconds (dt : datetime.t) : Z :=
  match datetime.tzinfo dt with
  | Some off => timedelta.total_microseconds off
  | None => 0
  end.

(** The instant a datetime denotes: its wall-clock reading, moved to UTC
    when it carries an offset. *)
Definition instant (dt : datetime.t) : Z :=
  local_microseconds dt - offset_microseconds dt.

(** [wholeDaysBetween(check_out, check_in)]: the floored number of whole
    days from check-in to check-out. *)
Definition wholeDaysBetween (check_out check_in : datetime.t) : Z :=
  (instant check_out - instant check_in) / 86400000000.

(** Both datetimes are naive, or both carry an offset. *)
Definition same_awareness (d1 d2 : datetime.t) : Prop :=
  datetime.tzinfo d1 = None ↔ datetime.tzinfo d2 = None.

Definition offset_ok (tz : option timedelta.t) : Prop :=
  match tz with
  | Some off => normalised off ∧ -1 ≤ timedelta.days off ≤ 0
  | None => True
  end.

(** What the constructor and [timezone] guarantee of a parsed datetime. *)
Definition in_range (dt : datetime.t) : Prop :=
  datetime._check_fields dt = true ∧ offset_ok (datetime.tzinfo dt).

(** ** Quote requests *)

(** One of the two dates of the request does not parse. *)
Definition unparseable (req : BookingRequest.t) : Prop :=
  datetime.fromisoformat (BookingRequest.check_in req) = None
  ∨ datetime.fromisoformat (BookingRequest.check_out req) = None.

(** The addon lines of a quote: every requested name, in order, with its
    price. *)
Definition priced (names : list string) : list Addon.t :=
  (λ a, Addon.mk a (addon_price a)) <$> names.

(** 5 January 2024 is a Friday. *)
Definition friday_request : BookingRequest.t :=
  BookingRequest.mk None "2024-01-05" "2024-01-07" 1 ["candlelight"].

Definition saturday_request : BookingRequest.t :=
  BookingRequest.mk None "2024-01-06" "2024-01-09" 2 ["flowers"; "spa"].

Definition sunday_request : BookingRequest.t :=
  BookingRequest.mk None "2024-01-07" "2024-01-08" 1 [].

Definition two_wines_request : BookingRequest.t :=
  BookingRequest.mk (Some "sky-suite") "2024-01-10" "2024-01-11" 2
    ["wine"; "wine"].

Definition bad_date_request : BookingRequest.t :=
  BookingRequest.mk None "next friday" "2024-01-07" 1 [].

(** A naive check-in with a check-out that carries a UTC offset. *)
Definition mixed_request : BookingRequest.t :=
  BookingRequest.mk None "2024-01-05" "2024-01-07T00:00:00+00:00" 1 [].

(** ** Concierge requests *)

(** The strings of a stored list, when every item is a string. *)
Fixpoint strings_of (items : list value) : option (list string) :=
  match items with
  | [] => Some []
  | VStr s :: rest => cons s <$> strings_of rest
  | _ => None
  end.

(** The allergens list of a stored dish that conforms to the [Dish] schema:
    a list of strings, empty when the field is absent. *)
Definition allergens_of (d : document) : option (list string) :=
  match d !! "allergens" with
  | None => Some []
  | Some (VList items) => strings_of items
  | Some _ => None
  end.

Section ConciergeVocabulary.

Variable lower : string → string.

(** Case-insensitive comparison of an allergen with a dietary term. *)
Definition same_term (a t : string) : bool := String.eqb (lower a) (lower t).

(** The dish's allergens list contains none of the dietary terms. *)
Definition allergen_free (dietary : list string) (d : document) : bool :=
  match allergens_of d with
  | Some allergens =>
      forallb (λ a, forallb (λ t, negb (same_term a t)) dietary) allergens
  | None => false
  end.

End ConciergeVocabulary.

Definition greeting_for (pref : Preference.t) : string :=
  "Welcome to the AR Hotel Universe"
  +:+ match Preference.language pref with
      | Some (String c l) => ", " +:+ String c l
      | _ => ""
      end
  +:+ "!".

(** The menu right after seeding. *)
Definition seeded_menu : database := <["dish" := Dish_document <$> dishes]> ∅.

Definition quantum_mousse : document :=
  default ∅ ((Dish_document <$> dishes) !! 1%nat).

(** A stored dish with no [allergens] field. *)
Definition unlabelled_dish : document :=
  <["name" := VStr "Stardust Tea"]> (<["category" := VStr "drink"]> ∅).

Definition mixed_menu : database :=
  <["dish" := ((Dish_document <$> dishes) ++ [unlabelled_dish])%list]> ∅.

Definition no_fish : Preference.t :=
  Preference.mk (Some ["FISH"]) None None None None.

(** ** Answers *)


(** A stored value a [for] loop cannot run over. *)
Definition not_iterable (v : value) : Prop :=
  match v with
  | VList _ | VStr _ => False
  | _ => True
  end.

(** ** More requests and menus *)

(** A check-out a week before the check-in. *)
Definition inverted_request : BookingRequest.t :=
  BookingRequest.mk None "2024-01-10" "2024-01-03" 1 ["wine"].

(** The language a greeting mentions: none when absent or empty. *)
Definition spoken (language : option string) : option string :=
  match language with
  | Some (String c l) => Some (String c l)
  | _ => None
  end.

(** The dietary terms that are acted on: none when absent or empty. *)
Definition restricting (dietary : option (list string)) : list string :=
  default [] dietary.

(** A stored dish whose [allergens] field is null. *)
Definition unreadable_dish : document :=
  <["name" := VStr "Mystery Soup"]> (<["allergens" := VNull]> ∅).

Definition broken_menu : database :=
  <["dish" := ((Dish_document <$> dishes) ++ [unreadable_dish])%list]> ∅.


(** * Properties *)

(** ** Time arithmetic *)

Lemma timedelta_new_normalised d s us : normalised (timedelta.new d s us).
Proof.
  unfold normalised, timedelta.new; simpl.
  split; apply Z.mod_pos_bound; lia.
Qed.

Lemma timedelta_new_total d s us :
  timedelta.total_microseconds (timedelta.new d s us)
  = (d * 86400 + s) * 1000000 + us.
Proof.
  unfold timedelta.total_microseconds, timedelta.new; simpl.
  Z.to_euclidean_division_equations; lia.
Qed.

Lemma timedelta_days_floor x :
  normalised x →
  timedelta.days x = timedelta.total_microseconds x / 86400000000.
Proof.
  intros [Hs Hus]. unfold timedelta.total_microseconds.
  Z.to_euclidean_division_equations; lia.
Qed.

(** The [days] of a difference of datetimes is the floored number of whole
    days between the two instants. *)
Lemma datetime_sub_days (d2 d1 : datetime.t) (delta : timedelta.t) :
  datetime.sub d2 d1 = Returns delta →
  timedelta.days delta = wholeDaysBetween d2 d1.
Proof.
  unfold datetime.sub, datetime.utcoffset, wholeDaysBetween, instant,
    offset_microseconds.
  destruct (datetime.tzinfo d2) as [myoff|], (datetime.tzinfo d1) as [otoff|];
    try discriminate.
  - destruct (decide (myoff = otoff)) as [->|_]; intros [= <-].
    + rewrite timedelta_days_floor by apply timedelta_new_normalised.
      rewrite timedelta_new_total. unfold local_microseconds. f_equal; lia.
    + unfold timedelta.sub, timedelta.add.
      rewrite timedelta_days_floor by apply timedelta_new_normalised.
      rewrite !timedelta_new_total.
      unfold timedelta.total_microseconds, local_microseconds. simpl.
      f_equal. Z.to_euclidean_division_equations; lia.
  - intros [= <-].
    rewrite timedelta_days_floor by apply timedelta_new_normalised.
    rewrite timedelta_new_total. unfold local_microseconds. f_equal; lia.
Qed.

Lemma datetime_sub_returns d2 d1 :
  same_awareness d1 d2 → ∃ delta, datetime.sub d2 d1 = Returns delta.
Proof.
  unfold same_awareness, datetime.sub, datetime.utcoffset.
  destruct (datetime.tzinfo d2), (datetime.tzinfo d1); intros [H1 H2];
    try (destruct (decide _)); eauto;
    try (by discriminate H1); by discriminate H2.
Qed.

(** Subtracting a naive datetime from an aware one, or the reverse, raises
    [TypeError]. *)
Lemma datetime_sub_raises d2 d1 :
  ¬ same_awareness d1 d2 → datetime.sub d2 d1 = Raises TypeError.
Proof.
  unfold same_awareness, datetime.sub, datetime.utcoffset.
  destruct (datetime.tzinfo d2), (datetime.tzinfo d1); intros H;
    try done; exfalso; apply H; done.
Qed.

Lemma weekday_range dt : 0 ≤ datetime.weekday dt < 7.
Proof. unfold datetime.weekday. apply Z.mod_pos_bound. lia. Qed.

(** ** Parsed datetimes are in range *)

Lemma timezone_ok off tzi :
  normalised off → datetime.timezone off = Some tzi → offset_ok (Some tzi).
Proof.
  intros Hn. unfold datetime.timezone.
  destruct (_ && _) eqn:Hb; [|discriminate]. intros [= <-].
  split; [done|].
  apply andb_prop in Hb as [Hmin Hmax].
  unfold timedelta.leb in *.
  change (timedelta.days datetime._minoffset) with (-1) in Hmin.
  change (timedelta.days datetime._maxoffset) with 0 in Hmax.
  destruct Hn as [Hs Hus].
  change (timedelta.seconds datetime._maxoffset) with 86399 in Hmax.
  apply orb_prop in Hmin, Hmax.
  destruct Hmin as [?%Z.ltb_lt|[?%Z.eqb_eq _]%andb_prop];
  destruct Hmax as [?%Z.ltb_lt|[?%Z.eqb_eq _]%andb_prop]; lia.
Qed.

Lemma _parse_isoformat_time_ok tstr hh mm ss us tz :
  datetime._parse_isoformat_time tstr = Some (hh, mm, ss, us, tz) →
  offset_ok tz.
Proof.
  unfold datetime._parse_isoformat_time.
  destruct (datetime.split_tz tstr) as [timestr [[tzsign tzstr]|]].
  - destruct (datetime._parse_hh_mm_ss_ff timestr) as [[[[??]?]?]|];
      [simpl|discriminate].
    destruct (negb _); [discriminate|].
    destruct (datetime._parse_hh_mm_ss_ff tzstr) as [[[[zh zm] zs] zus]|];
      [simpl|discriminate].
    destruct (_ && _).
    + intros [= <- <- <- <- <-]. split; [apply timedelta_new_normalised|done].
    + destruct (datetime.timezone _) as [tzi|] eqn:Htz; [simpl|discriminate].
      intros [= <- <- <- <- <-].
      eapply timezone_ok; [|exact Htz]. apply timedelta_new_normalised.
  - destruct (datetime._parse_hh_mm_ss_ff timestr) as [[[[??]?]?]|];
      [simpl|discriminate].
    by intros [= <- <- <- <- <-].
Qed.

Lemma fromisoformat_in_range s dt :
  datetime.fromisoformat s = Some dt → in_range dt.
Proof.
  unfold datetime.fromisoformat.
  destruct (datetime._parse_isoformat_date s) as [[[[y m] d] rest]|];
    [simpl|discriminate].
  destruct (match rest with EmptyString => _ | String _ _ => _ end)
    as [[[[[hh mm] ss] us] tz]|] eqn:Htime; [simpl|discriminate].
  destruct (datetime._check_fields _) eqn:Hc; [|discriminate].
  intros [= <-]. split; [done|]. simpl.
  destruct rest as [|sep tstr].
  - by injection Htime as <- <- <- <- <-.
  - by eapply _parse_isoformat_time_ok.
Qed.

Ltac split_checks H :=
  repeat match type of H with
         | _ && _ = true =>
             let H' := fresh "Hc" in apply andb_prop in H as [H H']
         end;
  repeat match goal with
         | Hb : (_ <=? _) = true |- _ => apply Z.leb_le in Hb
         end.

Lemma _days_before_month_range y m :
  1 ≤ m ≤ 12 → 0 ≤ datetime._days_before_month y m ≤ 335.
Proof.
  intros Hm. unfold datetime._days_before_month.
  assert (Hcases : m = 1 ∨ m = 2 ∨ m = 3 ∨ m = 4 ∨ m = 5 ∨ m = 6 ∨ m = 7
                   ∨ m = 8 ∨ m = 9 ∨ m = 10 ∨ m = 11 ∨ m = 12) by lia.
  destruct (datetime._is_leap y);
    repeat (destruct Hcases as [->|Hcases]; [simpl; lia|]);
    subst; simpl; lia.
Qed.

Lemma _days_in_month_le y m : datetime._days_in_month y m ≤ 31.
Proof.
  unfold datetime._days_in_month, datetime._DAYS_IN_MONTH.
  destruct (_ && _); [lia|].
  repeat (destruct m as [|[m|m|]|]; try lia).
Qed.

Lemma in_range_instant dt :
  in_range dt →
  0 ≤ local_microseconds dt < 315538070400000000
  ∧ -86400000000 ≤ offset_microseconds dt < 86400000000.
Proof.
  intros [Hc Hoff]. split.
  - unfold datetime._check_fields in Hc. split_checks Hc.
    pose proof (_days_before_month_range (datetime.year dt) (datetime.month dt)
                  ltac:(lia)).
    pose proof (_days_in_month_le (datetime.year dt) (datetime.month dt)).
    unfold local_microseconds, datetime.toordinal, datetime._ymd2ord,
      datetime._days_before_year.
    Z.to_euclidean_division_equations; lia.
  - unfold offset_microseconds. destruct (datetime.tzinfo dt) as [off|]; [|lia].
    destruct Hoff as [[Hs Hus] Hd]. unfold timedelta.total_microseconds. lia.
Qed.

Lemma in_range_wholeDaysBetween d2 d1 :
  in_range d1 → in_range d2 → -3652064 < wholeDaysBetween d2 d1 < 3652064.
Proof.
  intros H1%in_range_instant H2%in_range_instant.
  unfold wholeDaysBetween, instant.
  Z.to_euclidean_division_equations; lia.
Qed.

(** ** Floats *)

Lemma float_of_int_returns n :
  Z.abs n < 2 ^ 1024 - 2 ^ 970 →
  float_of_int n = Returns (SF2Prim (binary_normalize prec emax n 0 false)).
Proof.
  intros Hn. unfold float_of_int.
  by destruct (Z.ltb_spec (Z.abs n) (2 ^ 1024 - 2 ^ 970)); [|lia].
Qed.

Lemma float_of_int_raises n :
  2 ^ 1024 - 2 ^ 970 ≤ Z.abs n → float_of_int n = Raises OverflowError.
Proof.
  intros Hn. unfold float_of_int.
  by destruct (Z.ltb_spec (Z.abs n) (2 ^ 1024 - 2 ^ 970)); [lia|].
Qed.

(** [round(500.0 * 1.1, 2)] is exactly 550.0. *)
Lemma nightly_rate_weekend : round2 (500 * 1.1) = 550%float.
Proof. vm_compute. reflexivity. Qed.

Lemma nightly_rate_weekday : round2 (500 * 1) = 500%float.
Proof. vm_compute. reflexivity. Qed.

(** ** The booking quote *)

Lemma or_empty_id {A} (l : list A) : or_empty l = l.
Proof. by destruct l. Qed.

(** Every step a returned quote went through. *)
Lemma booking_quote_inv db req r :
  booking_quote db req = Returns r →
  ∃ d1 d2 delta stay extras,
    is_Some db
    ∧ datetime.fromisoformat (BookingRequest.check_in req) = Some d1
    ∧ datetime.fromisoformat (BookingRequest.check_out req) = Some d2
    ∧ datetime.sub d2 d1 = Returns delta
    ∧ float_of_int (Z.max 1 (timedelta.days delta)) = Returns stay
    ∧ float_of_int (int_sum (Addon.price <$> priced (BookingRequest.addons req)))
      = Returns extras
    ∧ r = QuoteResponse.mk
            (round2 (500 * (if 4 <=? datetime.weekday d1 then 1.1 else 1)))
            (Z.max 1 (timedelta.days delta))
            (priced (BookingRequest.addons req))
            (round2
               (round2 (500 * (if 4 <=? datetime.weekday d1 then 1.1 else 1))
                * stay + extras))
            (if datetime.weekday d1 =? 5 then Some sunday_hint else None).
Proof.
  unfold booking_quote, parse_date. rewrite or_empty_id.
  destruct db as [store|]; [|discriminate].
  destruct (datetime.fromisoformat (BookingRequest.check_in req)) as [d1|];
    [|discriminate].
  destruct (datetime.fromisoformat (BookingRequest.check_out req)) as [d2|];
    [|discriminate].
  simpl.
  destruct (datetime.sub d2 d1) as [delta|] eqn:Hsub; [|discriminate].
  simpl.
  destruct (float_of_int (Z.max 1 (timedelta.days delta))) as [stay|] eqn:Hstay;
    [|discriminate].
  simpl. fold (priced (BookingRequest.addons req)).
  destruct (float_of_int (int_sum _)) as [extras|] eqn:Hextras; [|discriminate].
  simpl. intros [= <-].
  exists d1, d2, delta, stay, extras. eauto 10.
Qed.

(** The quote succeeds on every request with a configured database, two
    parseable dates of the same awareness and an addon cost that fits a
    float. *)
Lemma booking_quote_returns store req d1 d2 :
  datetime.fromisoformat (BookingRequest.check_in req) = Some d1 →
  datetime.fromisoformat (BookingRequest.check_out req) = Some d2 →
  same_awareness d1 d2 →
  Z.abs (int_sum (Addon.price <$> priced (BookingRequest.addons req)))
    < 2 ^ 1024 - 2 ^ 970 →
  ∃ r, booking_quote (Some store) req = Returns r.
Proof.
  intros H1 H2 [delta Hsub]%datetime_sub_returns Hsum.
  unfold booking_quote, parse_date. rewrite or_empty_id, H1, H2. simpl.
  rewrite Hsub. simpl.
  pose proof (datetime_sub_days _ _ _ Hsub) as Hdays.
  pose proof (in_range_wholeDaysBetween d2 d1
                (fromisoformat_in_range _ _ H1) (fromisoformat_in_range _ _ H2)).
  rewrite (float_of_int_returns (Z.max 1 _)).
  2:{ assert (3652064 < 2 ^ 1024 - 2 ^ 970) by (vm_compute; reflexivity). lia. }
  simpl. fold (priced (BookingRequest.addons req)).
  rewrite (float_of_int_returns (int_sum _)) by done. simpl. eauto.
Qed.

(** What the handler charges per night: the surcharge applies from weekday
    index 4 on, that is on Friday, Saturday and Sunday. *)
Lemma booking_quote_nightly_rate db req r d1 :
  booking_quote db req = Returns r →
  datetime.fromisoformat (BookingRequest.check_in req) = Some d1 →
  QuoteResponse.nightly_rate r
  = if 4 <=? datetime.weekday d1 then 550%float else 500%float.
Proof.
  intros (d1' & d2 & delta & stay & extras & _ & H1 & _ & _ & _ & _ & ->)
    %booking_quote_inv Hd1.
  simplify_eq. simpl.
  destruct (4 <=? _);
    [apply nightly_rate_weekend | apply nightly_rate_weekday].
Qed.

Lemma addon_price_default (a : string) :
  a ∉ ["flowers"; "wine"; "candlelight"] → addon_price a = 50.
Proof.
  intros Ha. unfold addon_price, addon_map.
  rewrite !not_elem_of_cons in Ha. destruct Ha as (? & ? & ? & _).
  by rewrite !lookup_insert_ne, lookup_empty.
Qed.

(** C1: the specification quotes a check-in on Friday or Saturday at 550.00
    a night and a check-in on any other weekday, Sunday to Thursday, at
    500.00. The handler tests [weekday() >= 4], which also holds on Sunday
    (index 6): the quote for a check-in on Sunday 7 January 2024 has a
    nightly rate of 550.00, not 500.00. *)
Theorem C1_sunday_check_in_is_surcharged :
  datetime.weekday <$> datetime.fromisoformat
                         (BookingRequest.check_in sunday_request) = Some 6
  ∧ booking_quote (Some ∅) sunday_request
    = Returns (QuoteResponse.mk 550 1 [] 550 None).
Proof. split; vm_compute; reflexivity. Qed.

(** C2, as stated, fails: a request whose check-in does not parse is not
    answered with a 4xx client error, and unparseable dates are not the only
    input on which the quote fails (a naive check-in with an aware check-out
    raises too). *)
Lemma C2_bad_dates_are_not_a_client_error :
  ¬ (unparseable bad_date_request →
     is_client_error (booking_quote (Some ∅) bad_date_request) = true)
  ∧ ¬ (∀ e, booking_quote (Some ∅) mixed_request = Raises e →
            unparseable mixed_request).
Proof.
  split.
  - intros H. assert (Hbad : unparseable bad_date_request)
      by (left; vm_compute; reflexivity).
    specialize (H Hbad). vm_compute in H. discriminate H.
  - intros H. destruct (H TypeError) as [H'|H'];
      [vm_compute; reflexivity|vm_compute in H'; discriminate H'..].
Qed.

(** C2, amended: with the database configured, a quote request in which
    check_in or check_out does not parse fails with the parser's
    [ValueError], which the handler does not catch and which is therefore
    answered with status 500; and a request whose two dates parse, one naive
    and one with a UTC offset, fails with [TypeError]. *)
Theorem C2_bad_dates_raise_ValueError (store : database)
    (req : BookingRequest.t) :
  (unparseable req →
   booking_quote (Some store) req = Raises ValueError
   ∧ http_status (booking_quote (Some store) req) = 500)
  ∧ (∀ d1 d2,
       datetime.fromisoformat (BookingRequest.check_in req) = Some d1 →
       datetime.fromisoformat (BookingRequest.check_out req) = Some d2 →
       ¬ same_awareness d1 d2 →
       booking_quote (Some store) req = Raises TypeError).
Proof.
  split.
  - intros Hbad.
    assert (booking_quote (Some store) req = Raises ValueError) as ->; [|done].
    unfold booking_quote, parse_date.
    destruct Hbad as [-> | Hout]; [done|].
    destruct (datetime.fromisoformat (BookingRequest.check_in req)); [|done].
    by rewrite Hout.
  - intros d1 d2 H1 H2 Hmixed%datetime_sub_raises.
    unfold booking_quote, parse_date. rewrite H1, H2. simpl.
    by rewrite Hmixed.
Qed.

Lemma C2_witness :
  unparseable bad_date_request
  ∧ booking_quote (Some ∅) bad_date_request = Raises ValueError
  ∧ http_status (booking_quote (Some ∅) bad_date_request) = 500.
Proof.
  assert (Hbad : unparseable bad_date_request)
    by (left; vm_compute; reflexivity).
  split; [exact Hbad|].
  exact (proj1 (C2_bad_dates_raise_ValueError ∅ bad_date_request) Hbad).
Defined.

(** C3: for every quote returned on parseable dates, nights equals
    max(1, wholeDaysBetween(check_out, check_in)); it is never zero or
    negative, and when check-in is not after check-out and the floored day
    difference is at least 1, nights is that difference. *)
Theorem C3_nights (db : option database) (req : BookingRequest.t)
    (r : QuoteResponse.t) (d1 d2 : datetime.t) :
  booking_quote db req = Returns r →
  datetime.fromisoformat (BookingRequest.check_in req) = Some d1 →
  datetime.fromisoformat (BookingRequest.check_out req) = Some d2 →
  QuoteResponse.nights r = Z.max 1 (wholeDaysBetween d2 d1)
  ∧ 1 ≤ QuoteResponse.nights r
  ∧ (instant d1 ≤ instant d2 → 1 ≤ wholeDaysBetween d2 d1 →
     QuoteResponse.nights r = wholeDaysBetween d2 d1).
Proof.
  intros (d1' & d2' & delta & stay & extras & _ & H1 & H2 & Hsub & _ & _ & ->)
    %booking_quote_inv Hd1 Hd2.
  simplify_eq. simpl.
  rewrite (datetime_sub_days _ _ _ Hsub). lia.
Qed.

Lemma C3_witness :
  booking_quote (Some ∅) friday_request
  = Returns (QuoteResponse.mk 550 2 [Addon.mk "candlelight" 200] 1300 None)
  ∧ QuoteResponse.nights
      (QuoteResponse.mk 550 2 [Addon.mk "candlelight" 200] 1300 None) = 2.
Proof.
  assert (Hq : booking_quote (Some ∅) friday_request
               = Returns (QuoteResponse.mk 550 2 [Addon.mk "candlelight" 200]
                            1300 None))
    by (vm_compute; reflexivity).
  split; [exact Hq|].
  refine (eq_trans (proj1 (C3_nights (Some ∅) friday_request _
                     (datetime.mk 2024 1 5 0 0 0 0 None)
                     (datetime.mk 2024 1 7 0 0 0 0 None) Hq _ _)) _);
    vm_compute; reflexivity.
Defined.

(** C5: in every returned quote the addon lines are the requested names in
    order, each priced by the table flowers 60, wine 120, candlelight 200
    and 50 for any other name, duplicates priced one by one; two wines cost
    240. *)
Theorem C5_addon_pricing (db : option database) (req : BookingRequest.t)
    (r : QuoteResponse.t) :
  booking_quote db req = Returns r →
  QuoteResponse.addons r
  = (λ a, Addon.mk a (addon_price a)) <$> BookingRequest.addons req
  ∧ addon_price "flowers" = 60
  ∧ addon_price "wine" = 120
  ∧ addon_price "candlelight" = 200
  ∧ (∀ a, a ∉ ["flowers"; "wine"; "candlelight"] → addon_price a = 50)
  ∧ (BookingRequest.addons req = ["wine"; "wine"] →
     int_sum (Addon.price <$> QuoteResponse.addons r) = 240).
Proof.
  intros (d1 & d2 & delta & stay & extras & _ & _ & _ & _ & _ & _ & ->)
    %booking_quote_inv.
  simpl. split; [done|].
  repeat split; try (vm_compute; reflexivity).
  - apply addon_price_default.
  - intros ->. vm_compute. reflexivity.
Qed.

Lemma C5_witness :
  booking_quote (Some ∅) two_wines_request
  = Returns (QuoteResponse.mk 500 1 [Addon.mk "wine" 120; Addon.mk "wine" 120]
               740 None)
  ∧ int_sum (Addon.price <$> [Addon.mk "wine" 120; Addon.mk "wine" 120]) = 240.
Proof.
  assert (Hq : booking_quote (Some ∅) two_wines_request
               = Returns (QuoteResponse.mk 500 1
                            [Addon.mk "wine" 120; Addon.mk "wine" 120]
                            740 None))
    by (vm_compute; reflexivity).
  split; [exact Hq|].
  exact (proj2 (proj2 (proj2 (proj2 (proj2
           (C5_addon_pricing (Some ∅) two_wines_request _ Hq))))) eq_refl).
Defined.

(** C6: in every returned quote, total is nightly_rate times nights plus the
    sum of the addon prices, rounded to 2 decimal places; and the request
    check_in 2024-01-05, check_out 2024-01-07, addons candlelight yields 2
    nights at 550.00, a total of 1300.00 and no suggestion. *)
Theorem C6_total :
  (∀ (db : option database) (req : BookingRequest.t) (r : QuoteResponse.t),
     booking_quote db req = Returns r →
     ∃ stay extras,
       float_of_int (QuoteResponse.nights r) = Returns stay
       ∧ float_of_int (int_sum (Addon.price <$> QuoteResponse.addons r))
         = Returns extras
       ∧ QuoteResponse.total r
         = round2 (QuoteResponse.nightly_rate r * stay + extras))
  ∧ (∀ (store : database) (room_id : option string) (guests : Z),
       booking_quote (Some store)
         (BookingRequest.mk room_id "2024-01-05" "2024-01-07" guests
            ["candlelight"])
       = Returns (QuoteResponse.mk 550 2 [Addon.mk "candlelight" 200]
                    1300 None)).
Proof.
  split.
  - intros db req r
      (d1 & d2 & delta & stay & extras & _ & _ & _ & _ & Hs & He & ->)
      %booking_quote_inv.
    exists stay, extras. simpl. done.
  - intros. vm_compute. reflexivity.
Qed.

Lemma C6_witness :
  booking_quote (Some ∅) saturday_request
  = Returns (QuoteResponse.mk 550 3
               [Addon.mk "flowers" 60; Addon.mk "spa" 50] 1760
               (Some sunday_hint))
  ∧ ∃ stay extras,
      float_of_int 3 = Returns stay
      ∧ float_of_int (60 + 50) = Returns extras
      ∧ 1760%float = round2 (550 * stay + extras).
Proof.
  assert (Hq : booking_quote (Some ∅) saturday_request
               = Returns (QuoteResponse.mk 550 3
                            [Addon.mk "flowers" 60; Addon.mk "spa" 50] 1760
                            (Some sunday_hint)))
    by (vm_compute; reflexivity).
  split; [exact Hq|].
  exact (proj1 C6_total (Some ∅) saturday_request _ Hq).
Defined.

(** C7: in every returned quote the suggestion is the fixed Sunday-arrival
    string when the check-in falls on Saturday (weekday index 5), and is
    absent on every other weekday. *)
Theorem C7_suggestion (db : option database) (req : BookingRequest.t)
    (r : QuoteResponse.t) (d1 : datetime.t) :
  booking_quote db req = Returns r →
  datetime.fromisoformat (BookingRequest.check_in req) = Some d1 →
  (datetime.weekday d1 = 5 → QuoteResponse.suggestion r = Some sunday_hint)
  ∧ (datetime.weekday d1 ≠ 5 → QuoteResponse.suggestion r = None).
Proof.
  intros (d1' & d2 & delta & stay & extras & _ & H1 & _ & _ & _ & _ & ->)
    %booking_quote_inv Hd1.
  simplify_eq. simpl.
  destruct (Z.eqb_spec (datetime.weekday d1') 5); split; done.
Qed.

Lemma C7_witness :
  booking_quote (Some ∅) saturday_request
  = Returns (QuoteResponse.mk 550 3
               [Addon.mk "flowers" 60; Addon.mk "spa" 50] 1760
               (Some sunday_hint))
  ∧ datetime.fromisoformat (BookingRequest.check_in saturday_request)
    = Some (datetime.mk 2024 1 6 0 0 0 0 None)
  ∧ datetime.weekday (datetime.mk 2024 1 6 0 0 0 0 None) = 5
  ∧ Some sunday_hint = Some sunday_hint.
Proof.
  assert (Hq : booking_quote (Some ∅) saturday_request
               = Returns (QuoteResponse.mk 550 3
                            [Addon.mk "flowers" 60; Addon.mk "spa" 50] 1760
                            (Some sunday_hint)))
    by (vm_compute; reflexivity).
  assert (Hd : datetime.fromisoformat (BookingRequest.check_in saturday_request)
               = Some (datetime.mk 2024 1 6 0 0 0 0 None))
    by (vm_compute; reflexivity).
  assert (Hw : datetime.weekday (datetime.mk 2024 1 6 0 0 0 0 None) = 5)
    by (vm_compute; reflexivity).
  split; [exact Hq|]. split; [exact Hd|]. split; [exact Hw|].
  exact (proj1 (C7_suggestion (Some ∅) saturday_request _ _ Hq Hd) Hw).
Defined.

(** C9: two quote requests that differ only in room_id, whatever the
    database holds, have the same outcome, hence the same nightly_rate,
    nights, addons, total and suggestion; the nightly rate of a returned
    quote is computed from the constant 500.0 and the weekday of the
    check-in alone. *)
Theorem C9_room_id_is_ignored (store1 store2 : database)
    (room1 room2 : option string) (check_in check_out : string) (guests : Z)
    (addons : list string) :
  (∀ db, booking_quote db
           (BookingRequest.mk room1 check_in check_out guests addons)
         = booking_quote db
             (BookingRequest.mk room2 check_in check_out guests addons))
  ∧ booking_quote (Some store1)
      (BookingRequest.mk room1 check_in check_out guests addons)
    = booking_quote (Some store2)
        (BookingRequest.mk room2 check_in check_out guests addons)
  ∧ ∀ r d1,
      booking_quote (Some store1)
        (BookingRequest.mk room1 check_in check_out guests addons)
      = Returns r →
      datetime.fromisoformat check_in = Some d1 →
      QuoteResponse.nightly_rate r
      = round2 (500 * (if 4 <=? datetime.weekday d1 then 1.1 else 1)).
Proof.
  split; [reflexivity|]. split; [reflexivity|].
  intros r d1
    (d1' & d2 & delta & stay & extras & _ & H1 & _ & _ & _ & _ & ->)
    %booking_quote_inv Hd1.
  simpl in *. by simplify_eq.
Qed.

(** ** Seeding *)

Lemma find_all_insert (db : database) name docs :
  find_all (<[name := docs]> db) name = docs.
Proof. unfold find_all. by rewrite lookup_insert_eq. Qed.

(** The loop adds the documents, in order, at the end of the collection and
    counts them. *)
Lemma insert_each_spec name docs (db : database) n :
  docs ≠ [] →
  insert_each name docs db n
  = (<[name := (find_all db name ++ docs)%list]> db,
     n + Z.of_nat (length docs)).
Proof.
  revert db n. induction docs as [|doc rest IH]; intros db n Hne; [done|].
  simpl. destruct rest as [|doc' rest'].
  - simpl. f_equal.
  - rewrite IH by done. rewrite find_all_insert, insert_insert_eq.
    rewrite <- app_assoc. simpl. f_equal. lia.
Qed.

Lemma count_documents_pos (db : database) name :
  0 < count_documents db name ↔ find_all db name ≠ [].
Proof.
  unfold count_documents.
  destruct (find_all db name); simpl; split; try done; lia.
Qed.

Lemma fixtures_nonempty k : fixtures k ≠ [].
Proof. by destruct k. Qed.

Lemma seed_some k (store : database) :
  seed k (Some store)
  = if 0 <? count_documents store (collection_of k)
    then (Returns (SeedResponse.mk 0), Some store)
    else (Returns (SeedResponse.mk (Z.of_nat (length (fixtures k)))),
          Some (<[collection_of k :=
                    (find_all store (collection_of k) ++ fixtures k)%list]>
                  store)).
Proof.
  destruct k; unfold seed, seed_rooms, seed_dishes, seed_experiences;
    cbn [collection_of fixtures];
    (destruct (0 <? _); [done|]);
    by rewrite insert_each_spec.
Qed.

(** C8: each seed operation (rooms, dishes, experiences) returns inserted=0
    and leaves the database as it was when its collection already holds a
    document; on an empty collection it stores the fixture list and returns
    how many documents that is; so a second call right after a first one
    returns inserted=0 and changes nothing. *)
Theorem C8_seed_inserts_only_when_empty (k : kind) (store : database) :
  (0 < count_documents store (collection_of k) →
   seed k (Some store) = (Returns (SeedResponse.mk 0), Some store))
  ∧ (count_documents store (collection_of k) = 0 →
     seed k (Some store)
     = (Returns (SeedResponse.mk (Z.of_nat (length (fixtures k)))),
        Some (<[collection_of k := fixtures k]> store))
     ∧ (0 < length (fixtures k))%nat)
  ∧ (∀ first db',
       seed k (Some store) = (first, db') →
       seed k db' = (Returns (SeedResponse.mk 0), db')).
Proof.
  pose proof (fixtures_nonempty k) as Hfix.
  split; [|split].
  - intros Hpos%Z.ltb_lt. by rewrite seed_some, Hpos.
  - intros Hzero. rewrite seed_some, Hzero. simpl.
    assert (find_all store (collection_of k) = []) as ->.
    { unfold count_documents in Hzero.
      destruct (find_all store (collection_of k)); [done|simpl in Hzero; lia]. }
    split; [done|]. destruct (fixtures k); [done|simpl; lia].
  - intros first db'. rewrite seed_some.
    destruct (0 <? count_documents store (collection_of k)) eqn:Hc;
      intros [= <- <-]; rewrite seed_some.
    + by rewrite Hc.
    + assert ((0 <? count_documents
                      (<[collection_of k :=
                           (find_all store (collection_of k) ++ fixtures k)%list]>
                         store) (collection_of k)) = true) as ->; [|done].
      apply Z.ltb_lt, count_documents_pos. rewrite find_all_insert.
      destruct (find_all store (collection_of k)); [done|done].
Qed.

Lemma C8_witness :
  count_documents ∅ (collection_of RoomKind) = 0
  ∧ seed RoomKind (Some ∅)
    = (Returns (SeedResponse.mk 2), Some (<["room" := fixtures RoomKind]> ∅))
  ∧ seed RoomKind (Some (<["room" := fixtures RoomKind]> ∅))
    = (Returns (SeedResponse.mk 0), Some (<["room" := fixtures RoomKind]> ∅)).
Proof.
  assert (Hempty : count_documents ∅ (collection_of RoomKind) = 0)
    by reflexivity.
  pose proof (proj1 (proj1 (proj2 (C8_seed_inserts_only_when_empty RoomKind ∅))
                       Hempty)) as Hfirst.
  split; [exact Hempty|]. split; [exact Hfirst|].
  exact (proj2 (proj2 (C8_seed_inserts_only_when_empty RoomKind ∅)) _ _ Hfirst).
Defined.

(** ** The concierge *)

Section ConciergeProperties.

Variable lower : string → string.

Lemma strings_of_fmap items allergens :
  strings_of items = Some allergens → items = VStr <$> allergens.
Proof.
  revert allergens. induction items as [|v rest IH]; intros allergens.
  - by intros [= <-].
  - destruct v; try discriminate. simpl.
    destruct (strings_of rest) as [l|]; [|discriminate].
    intros [= <-]. simpl. f_equal. by apply IH.
Qed.

Lemma allergens_of_iterate d allergens :
  allergens_of d = Some allergens →
  iterate (default (VList []) (d !! "allergens")) = Returns (VStr <$> allergens).
Proof.
  unfold allergens_of. destruct (d !! "allergens") as [v|]; simpl.
  - destruct v; try discriminate. by intros ->%strings_of_fmap.
  - by intros [= <-].
Qed.

(** Membership in the [avoid] set is case-insensitive equality with one of
    the dietary terms. *)
Lemma avoided_iff dietary a :
  lower a ∈ (list_to_set (lower <$> dietary) : gset string)
  ↔ existsb (same_term lower a) dietary = true.
Proof.
  rewrite existsb_exists, elem_of_list_to_set, list_elem_of_fmap.
  unfold same_term. split.
  - intros (t & Ht & Hin). exists t. rewrite <- list_elem_of_In.
    split; [done|]. by apply String.eqb_eq.
  - intros (t & Hin & Ht%String.eqb_eq). exists t.
    by rewrite list_elem_of_In.
Qed.

Lemma avoided_spec dietary a :
  bool_decide (lower a ∈ (list_to_set (lower <$> dietary) : gset string))
  = existsb (same_term lower a) dietary.
Proof.
  destruct (existsb (same_term lower a) dietary) eqn:He.
  - by apply bool_decide_eq_true, avoided_iff.
  - apply bool_decide_eq_false. rewrite avoided_iff. congruence.
Qed.

Lemma any_avoided_spec dietary allergens :
  any_avoided lower (list_to_set (lower <$> dietary)) (VStr <$> allergens)
  = Returns (existsb (λ a, existsb (same_term lower a) dietary) allergens).
Proof.
  induction allergens as [|a rest IH]; [done|].
  simpl. rewrite avoided_spec.
  by destruct (existsb (same_term lower a) dietary).
Qed.

Lemma forallb_negb {A} (f : A → bool) (l : list A) :
  forallb (λ x, negb (f x)) l = negb (existsb f l).
Proof.
  induction l as [|x l IH]; [done|]. simpl. by rewrite IH, negb_orb.
Qed.

Lemma allergen_free_negb dietary allergens :
  forallb (λ a, forallb (λ t, negb (same_term lower a t)) dietary) allergens
  = negb (existsb (λ a, existsb (same_term lower a) dietary) allergens).
Proof.
  rewrite <- forallb_negb.
  induction allergens as [|a rest IH]; [done|]. simpl.
  by rewrite IH, forallb_negb.
Qed.

(** On a menu of schema-conformant dishes the loop returns, and what it
    returns is the menu filtered by [allergen_free]. *)
Lemma select_dishes_spec dietary menu :
  Forall (λ d, is_Some (allergens_of d)) menu →
  select_dishes lower (list_to_set (lower <$> dietary)) menu
  = Returns (List.filter (allergen_free lower dietary) menu).
Proof.
  induction 1 as [|d rest [allergens Hd] _ IH]; [done|].
  assert (Hfree : allergen_free lower dietary d
                  = negb (existsb (λ a, existsb (same_term lower a) dietary)
                            allergens))
    by (unfold allergen_free; rewrite Hd; apply allergen_free_negb).
  cbn [select_dishes List.filter]. rewrite Hfree.
  rewrite (allergens_of_iterate _ _ Hd). simpl.
  rewrite any_avoided_spec. simpl. rewrite IH. simpl.
  by destruct (existsb _ allergens).
Qed.

Lemma select_dishes_keeps_unlabelled avoid menu dishes d :
  select_dishes lower avoid menu = Returns dishes →
  d ∈ menu → d !! "allergens" = None → d ∈ dishes.
Proof.
  revert dishes. induction menu as [|d' rest IH]; intros dishes Hsel Hin Hnone.
  - by apply elem_of_nil in Hin.
  - simpl in Hsel.
    destruct (iterate _) as [items|] eqn:Hit; [simpl in Hsel|discriminate].
    destruct (any_avoided lower avoid items) as [hit|] eqn:Hany;
      [simpl in Hsel|discriminate].
    destruct (select_dishes lower avoid rest) as [kept|]; [|discriminate].
    simpl in Hsel. injection Hsel as <-.
    apply elem_of_cons in Hin as [<-|Hin].
    + rewrite Hnone in Hit. simpl in Hit. injection Hit as <-.
      simpl in Hany. injection Hany as <-. apply elem_of_cons. by left.
    + specialize (IH kept eq_refl Hin Hnone).
      destruct hit; [done|]. apply elem_of_cons. by right.
Qed.

Lemma concierge_inv db pref resp :
  concierge lower db pref = Returns resp →
  ∃ store dishes,
    db = Some store
    ∧ match Preference.dietary pref with
      | Some (t :: ts) =>
          select_dishes lower (list_to_set (lower <$> (t :: ts)))
            (find_all store "dish")
      | _ => Returns (first3 (find_all store "dish"))
      end = Returns dishes
    ∧ resp = ConciergeResponse.mk (greeting_for pref)
               [Suggestion.mk "dish" dishes;
                Suggestion.mk "experience"
                  (first3 (find_all store "experience"))].
Proof.
  unfold concierge. destruct db as [store|]; [|discriminate].
  destruct (match Preference.dietary pref with Some (t :: ts) => _ | _ => _ end)
    as [dishes|] eqn:Hsel; [|discriminate].
  simpl. intros [= <-]. by exists store, dishes.
Qed.

End ConciergeProperties.

(** C4: for a request with a non-empty dietary list, over stored dishes
    that conform to the schema, the suggested dishes are exactly the dishes
    whose allergens list contains none of the dietary terms compared
    case-insensitively, all of them and in stored order; for a request with
    dietary empty or absent they are the first 3 dishes in stored order. *)
Theorem C4_dish_filtering (lower : string → string) (store : database)
    (pref : Preference.t) :
  (∀ dietary,
     Preference.dietary pref = Some dietary → dietary ≠ [] →
     Forall (λ d, is_Some (allergens_of d)) (find_all store "dish") →
     ∃ resp exps,
       concierge lower (Some store) pref = Returns resp
       ∧ ConciergeResponse.suggestions resp
         = [Suggestion.mk "dish"
              (List.filter (allergen_free lower dietary)
                 (find_all store "dish"));
            Suggestion.mk "experience" exps])
  ∧ (Preference.dietary pref = None ∨ Preference.dietary pref = Some [] →
     ∃ resp exps,
       concierge lower (Some store) pref = Returns resp
       ∧ ConciergeResponse.suggestions resp
         = [Suggestion.mk "dish" (take 3 (find_all store "dish"));
            Suggestion.mk "experience" exps]).
Proof.
  split.
  - intros dietary Hpref Hne Htyped. unfold concierge. rewrite Hpref.
    destruct dietary as [|t ts]; [done|].
    rewrite (select_dishes_spec lower (t :: ts) _ Htyped). simpl. eauto.
  - intros Hnone. unfold concierge.
    destruct Hnone as [-> | ->]; simpl; eauto.
Qed.

Lemma seeded_menu_conforms :
  Forall (λ d, is_Some (allergens_of d)) (find_all seeded_menu "dish").
Proof.
  assert (find_all seeded_menu "dish" = Dish_document <$> dishes) as ->
    by (vm_compute; reflexivity).
  repeat constructor; eexists; vm_compute; reflexivity.
Qed.

Lemma C4_witness :
  ∃ resp exps,
    concierge ascii_lower (Some seeded_menu) no_fish = Returns resp
    ∧ ConciergeResponse.suggestions resp
      = [Suggestion.mk "dish"
           (List.filter (allergen_free ascii_lower ["FISH"])
              (find_all seeded_menu "dish"));
         Suggestion.mk "experience" exps].
Proof.
  refine (proj1 (C4_dish_filtering ascii_lower seeded_menu no_fish)
            ["FISH"] eq_refl _ seeded_menu_conforms).
  discriminate.
Defined.

(** A dietary term in any case excludes the seeded dish that lists fish. *)
Example fish_is_excluded_in_any_case :
  List.filter (allergen_free ascii_lower ["FISH"]) (find_all seeded_menu "dish")
  = [quantum_mousse]
  ∧ List.filter (allergen_free ascii_lower ["Fish"]) (find_all seeded_menu "dish")
    = [quantum_mousse]
  ∧ List.filter (allergen_free ascii_lower ["fish"]) (find_all seeded_menu "dish")
    = [quantum_mousse].
Proof. repeat split; vm_compute; reflexivity. Qed.

(** C10: for a request with a non-empty dietary list, a stored dish that
    has no allergens field is iterated as an empty allergens list and is
    among the suggested dishes of every returned response, whatever the
    dietary terms. *)
Theorem C10_dish_without_allergens_is_kept (lower : string → string)
    (store : database) (pref : Preference.t) (dietary : list string)
    (d : document) (resp : ConciergeResponse.t) :
  Preference.dietary pref = Some dietary → dietary ≠ [] →
  d ∈ find_all store "dish" →
  d !! "allergens" = None →
  concierge lower (Some store) pref = Returns resp →
  iterate (default (VList []) (d !! "allergens")) = Returns []
  ∧ ∃ dishes exps,
      ConciergeResponse.suggestions resp
      = [Suggestion.mk "dish" dishes; Suggestion.mk "experience" exps]
      ∧ d ∈ dishes.
Proof.
  intros Hpref Hne Hin Hnone
    (store' & dishes & [= <-] & Hsel & ->)%concierge_inv.
  split; [by rewrite Hnone|].
  exists dishes, (first3 (find_all store "experience")). split; [done|].
  rewrite Hpref in Hsel. destruct dietary as [|t ts]; [done|].
  by eapply select_dishes_keeps_unlabelled.
Qed.

Lemma C10_witness :
  ∃ kept exps,
    [Suggestion.mk "dish" [quantum_mousse; unlabelled_dish];
     Suggestion.mk "experience" []]
    = [Suggestion.mk "dish" kept; Suggestion.mk "experience" exps]
    ∧ unlabelled_dish ∈ kept.
Proof.
  refine (proj2 (C10_dish_without_allergens_is_kept ascii_lower mixed_menu
                   no_fish ["FISH"] unlabelled_dish
                   (ConciergeResponse.mk "Welcome to the AR Hotel Universe!"
                      [Suggestion.mk "dish" [quantum_mousse; unlabelled_dish];
                       Suggestion.mk "experience" []])
                   eq_refl _ _ _ _)).
  - discriminate.
  - assert (find_all mixed_menu "dish"
            = (Dish_document <$> dishes) ++ [unlabelled_dish])%list as ->
      by (vm_compute; reflexivity).
    apply elem_of_app. right. apply list_elem_of_singleton. reflexivity.
  - vm_compute. reflexivity.
  - vm_compute. reflexivity.
Defined.

(** ** What the handlers answer *)











(** ** More on the booking quote *)

Lemma int_sum_from (l : list Z) (acc : Z) :
  fold_left Z.add l acc = acc + int_sum l.
Proof.
  unfold int_sum. revert acc. induction l as [|x l IH]; intros acc; simpl.
  - lia.
  - rewrite (IH (acc + x)), (IH (0 + x)). lia.
Qed.

Lemma int_sum_cons (x : Z) (l : list Z) : int_sum (x :: l) = x + int_sum l.
Proof. unfold int_sum at 1. simpl. by rewrite int_sum_from. Qed.

Lemma int_sum_perm (l1 l2 : list Z) : l1 ≡ₚ l2 → int_sum l1 = int_sum l2.
Proof.
  induction 1 as [|x l l' _ IH|x y l|l l' l'' _ IH1 _ IH2].
  - done.
  - by rewrite !int_sum_cons, IH.
  - rewrite !int_sum_cons. lia.
  - by rewrite IH1.
Qed.

Lemma addon_price_cases (a : string) :
  addon_price a = 50 ∨ addon_price a = 60 ∨ addon_price a = 120
  ∨ addon_price a = 200.
Proof.
  destruct (decide (a ∈ ["flowers"; "wine"; "candlelight"])) as [Hin|Hout].
  - rewrite !elem_of_cons in Hin.
    destruct Hin as [->|[->|[->|Hin]]]; [auto..|by apply elem_of_nil in Hin].
  - left. by apply addon_price_default.
Qed.

Lemma priced_names names : Addon.name <$> priced names = names.
Proof.
  unfold priced. induction names as [|a rest IH]; [done|].
  simpl. f_equal. exact IH.
Qed.

Lemma priced_sum_bounds names :
  50 * Z.of_nat (length names)
  ≤ int_sum (Addon.price <$> priced names)
  ≤ 200 * Z.of_nat (length names).
Proof.
  unfold priced. induction names as [|a rest IH]; [done|].
  cbn [fmap list_fmap length]. rewrite int_sum_cons. simpl Addon.price.
  pose proof (addon_price_cases a). lia.
Qed.

(** X2: a returned quote has a nightly rate of exactly 500.0 or 550.0, and
    a quote at 500.0 never carries a suggestion: the Sunday-arrival hint
    only appears on surcharged quotes. *)
Theorem quote_rate_and_suggestion (db : option database)
    (req : BookingRequest.t) (r : QuoteResponse.t) :
  booking_quote db req = Returns r →
  (QuoteResponse.nightly_rate r = 500%float
   ∧ QuoteResponse.suggestion r = None)
  ∨ (QuoteResponse.nightly_rate r = 550%float
     ∧ (QuoteResponse.suggestion r = None
        ∨ QuoteResponse.suggestion r = Some sunday_hint)).
Proof.
  intros (d1 & d2 & delta & stay & extras & _ & _ & _ & _ & _ & _ & ->)
    %booking_quote_inv.
  simpl.
  destruct (Z.leb_spec 4 (datetime.weekday d1)) as [Hw|Hw].
  - right. split; [apply nightly_rate_weekend|].
    destruct (_ =? 5); auto.
  - left. split; [apply nightly_rate_weekday|].
    destruct (Z.eqb_spec (datetime.weekday d1) 5); [lia|done].
Qed.

Lemma quote_rate_and_suggestion_witness :
  (QuoteResponse.nightly_rate
     (QuoteResponse.mk 550 3 [Addon.mk "flowers" 60; Addon.mk "spa" 50] 1760
        (Some sunday_hint)) = 500%float
   ∧ Some sunday_hint = None)
  ∨ (550%float = 550%float
     ∧ (Some sunday_hint = None ∨ Some sunday_hint = Some sunday_hint)).
Proof.
  refine (quote_rate_and_suggestion (Some ∅) saturday_request _ _).
  vm_compute. reflexivity.
Defined.

(** X3: a request whose check-out is not later than its check-in is not
    rejected: with a configured database, two parseable dates of the same
    awareness and an addon cost that fits a float, the handler returns a
    quote for one night. *)
Theorem inverted_dates_are_quoted_one_night (store : database)
    (req : BookingRequest.t) (d1 d2 : datetime.t) :
  datetime.fromisoformat (BookingRequest.check_in req) = Some d1 →
  datetime.fromisoformat (BookingRequest.check_out req) = Some d2 →
  same_awareness d1 d2 →
  instant d2 ≤ instant d1 →
  Z.abs (int_sum (Addon.price <$> priced (BookingRequest.addons req)))
    < 2 ^ 1024 - 2 ^ 970 →
  ∃ r, booking_quote (Some store) req = Returns r
       ∧ QuoteResponse.nights r = 1.
Proof.
  intros H1 H2 Haware Hinv Hsum.
  destruct (booking_quote_returns store req d1 d2 H1 H2 Haware Hsum) as [r Hr].
  exists r. split; [done|].
  apply booking_quote_inv in Hr
    as (d1' & d2' & delta & stay & extras & _ & H1' & H2' & Hsub & _ & _ & ->).
  simplify_eq. simpl. rewrite (datetime_sub_days _ _ _ Hsub).
  unfold wholeDaysBetween. Z.to_euclidean_division_equations; lia.
Qed.

Lemma inverted_dates_witness :
  ∃ r, booking_quote (Some ∅) inverted_request = Returns r
       ∧ QuoteResponse.nights r = 1.
Proof.
  refine (inverted_dates_are_quoted_one_night ∅ inverted_request
            (datetime.mk 2024 1 10 0 0 0 0 None)
            (datetime.mk 2024 1 3 0 0 0 0 None) _ _ _ _ _).
  - vm_compute. reflexivity.
  - vm_compute. reflexivity.
  - split; reflexivity.
  - vm_compute. discriminate.
  - vm_compute. reflexivity.
Defined.

(** X4: for the same check-in, a later check-out never yields fewer
    nights. *)
Theorem later_check_out_never_fewer_nights (db : option database)
    (req req' : BookingRequest.t) (r r' : QuoteResponse.t)
    (d1 d2 d2' : datetime.t) :
  booking_quote db req = Returns r →
  booking_quote db req' = Returns r' →
  datetime.fromisoformat (BookingRequest.check_in req) = Some d1 →
  datetime.fromisoformat (BookingRequest.check_in req') = Some d1 →
  datetime.fromisoformat (BookingRequest.check_out req) = Some d2 →
  datetime.fromisoformat (BookingRequest.check_out req') = Some d2' →
  instant d2 ≤ instant d2' →
  QuoteResponse.nights r ≤ QuoteResponse.nights r'.
Proof.
  intros (a1 & a2 & delta & ? & ? & _ & Ha1 & Ha2 & Hsub & _ & _ & ->)
    %booking_quote_inv
    (b1 & b2 & delta' & ? & ? & _ & Hb1 & Hb2 & Hsub' & _ & _ & ->)
    %booking_quote_inv H1 H1' H2 H2' Hle.
  simplify_eq. simpl.
  rewrite (datetime_sub_days _ _ _ Hsub), (datetime_sub_days _ _ _ Hsub').
  unfold wholeDaysBetween.
  apply Z.max_le_compat_l, Z.div_le_mono; lia.
Qed.

Lemma later_check_out_witness :
  QuoteResponse.nights
    (QuoteResponse.mk 550 2 [Addon.mk "candlelight" 200] 1300 None)
  ≤ QuoteResponse.nights
      (QuoteResponse.mk 550 4 [Addon.mk "candlelight" 200] 2400 None).
Proof.
  refine (later_check_out_never_fewer_nights (Some ∅) friday_request
            (BookingRequest.mk None "2024-01-05" "2024-01-09T18:30" 1
               ["candlelight"])
            _ _ (datetime.mk 2024 1 5 0 0 0 0 None)
            (datetime.mk 2024 1 7 0 0 0 0 None)
            (datetime.mk 2024 1 9 18 30 0 0 None) _ _ _ _ _ _ _);
    vm_compute; first [reflexivity | discriminate].
Defined.

(** X5: the addon lines of a returned quote carry the requested names
    unchanged and in order, every line is priced by the table at 50, 60, 120
    or 200, and the addon cost lies between 50 and 200 times the number of
    requested addons. *)
Theorem quote_addon_lines (db : option database) (req : BookingRequest.t)
    (r : QuoteResponse.t) :
  booking_quote db req = Returns r →
  Addon.name <$> QuoteResponse.addons r = BookingRequest.addons req
  ∧ Forall (λ a, Addon.price a = addon_price (Addon.name a)
                 ∧ (Addon.price a = 50 ∨ Addon.price a = 60
                    ∨ Addon.price a = 120 ∨ Addon.price a = 200))
      (QuoteResponse.addons r)
  ∧ 50 * Z.of_nat (length (BookingRequest.addons req))
    ≤ int_sum (Addon.price <$> QuoteResponse.addons r)
    ≤ 200 * Z.of_nat (length (BookingRequest.addons req)).
Proof.
  intros (d1 & d2 & delta & stay & extras & _ & _ & _ & _ & _ & _ & ->)
    %booking_quote_inv.
  simpl. split; [apply priced_names|]. split; [|apply priced_sum_bounds].
  unfold priced. apply Forall_fmap, Forall_forall. intros a _. simpl.
  split; [done|apply addon_price_cases].
Qed.

Lemma quote_addon_lines_witness :
  Addon.name <$> [Addon.mk "flowers" 60; Addon.mk "spa" 50] = ["flowers"; "spa"]
  ∧ Forall (λ a, Addon.price a = addon_price (Addon.name a)
                 ∧ (Addon.price a = 50 ∨ Addon.price a = 60
                    ∨ Addon.price a = 120 ∨ Addon.price a = 200))
      [Addon.mk "flowers" 60; Addon.mk "spa" 50]
  ∧ 50 * 2 ≤ int_sum (Addon.price <$> [Addon.mk "flowers" 60; Addon.mk "spa" 50])
    ≤ 200 * 2.
Proof.
  refine (quote_addon_lines (Some ∅) saturday_request
            (QuoteResponse.mk 550 3 [Addon.mk "flowers" 60; Addon.mk "spa" 50]
               1760 (Some sunday_hint)) _).
  vm_compute. reflexivity.
Defined.

(** X6: guests, room_id and the order of the addons do not change the
    amounts: a request with the same dates and a permutation of the addons
    is quoted with the same nightly rate, nights, total and suggestion, and
    with the same addon lines up to order. *)
Theorem quote_ignores_guests_and_addon_order (db : option database)
    (room room' : option string) (check_in check_out : string)
    (guests guests' : Z) (addons addons' : list string) (r : QuoteResponse.t) :
  addons ≡ₚ addons' →
  booking_quote db (BookingRequest.mk room check_in check_out guests addons)
  = Returns r →
  ∃ r',
    booking_quote db
      (BookingRequest.mk room' check_in check_out guests' addons')
    = Returns r'
    ∧ QuoteResponse.nightly_rate r' = QuoteResponse.nightly_rate r
    ∧ QuoteResponse.nights r' = QuoteResponse.nights r
    ∧ QuoteResponse.total r' = QuoteResponse.total r
    ∧ QuoteResponse.suggestion r' = QuoteResponse.suggestion r
    ∧ QuoteResponse.addons r' ≡ₚ QuoteResponse.addons r.
Proof.
  intros Hperm
    (d1 & d2 & delta & stay & extras & [store ->] & H1 & H2 & Hsub & Hs & He & ->)
    %booking_quote_inv.
  simpl in *.
  assert (Hpriced : priced addons' ≡ₚ priced addons)
    by (unfold priced; by rewrite Hperm).
  assert (Hsum : int_sum (Addon.price <$> priced addons')
                 = int_sum (Addon.price <$> priced addons))
    by (apply int_sum_perm; by rewrite Hpriced).
  eexists. split.
  - unfold booking_quote, parse_date. simpl. rewrite or_empty_id, H1, H2.
    simpl. rewrite Hsub. simpl. rewrite Hs. simpl.
    fold (priced addons'). rewrite Hsum, He. simpl. reflexivity.
  - simpl. done.
Qed.

Lemma quote_ignores_guests_and_addon_order_witness :
  ∃ r',
    booking_quote (Some ∅)
      (BookingRequest.mk (Some "sky") "2024-01-06" "2024-01-09" 4
         ["spa"; "flowers"])
    = Returns r'
    ∧ QuoteResponse.nightly_rate r' = 550%float
    ∧ QuoteResponse.nights r' = 3
    ∧ QuoteResponse.total r' = 1760%float
    ∧ QuoteResponse.suggestion r' = Some sunday_hint
    ∧ QuoteResponse.addons r'
      ≡ₚ [Addon.mk "flowers" 60; Addon.mk "spa" 50].
Proof.
  refine (quote_ignores_guests_and_addon_order (Some ∅) None (Some "sky")
            "2024-01-06" "2024-01-09" 2 4 ["flowers"; "spa"] ["spa"; "flowers"]
            (QuoteResponse.mk 550 3 [Addon.mk "flowers" 60; Addon.mk "spa" 50]
               1760 (Some sunday_hint)) _ _).
  - apply Permutation_swap.
  - vm_compute. reflexivity.
Defined.

(** ** More on the concierge *)

Lemma select_dishes_sublist lower avoid menu dishes :
  select_dishes lower avoid menu = Returns dishes → sublist dishes menu.
Proof.
  revert dishes. induction menu as [|d rest IH]; intros dishes.
  - intros [= <-]. constructor.
  - simpl. destruct (iterate _) as [items|]; [simpl|discriminate].
    destruct (any_avoided lower avoid items) as [hit|]; [simpl|discriminate].
    destruct (select_dishes lower avoid rest) as [kept|]; [simpl|discriminate].
    intros [= <-]. specialize (IH kept eq_refl).
    destruct hit; by constructor.
Qed.

(** X7: every returned concierge response has exactly two groups, "dish"
    then "experience"; the experience items are the first three stored
    experiences whatever the preference, and the dish items are a sublist
    of the stored menu, in stored order. *)
Theorem concierge_response_shape (lower : string → string)
    (db : option database) (pref : Preference.t)
    (resp : ConciergeResponse.t) :
  concierge lower db pref = Returns resp →
  ∃ store dishes,
    db = Some store
    ∧ ConciergeResponse.suggestions resp
      = [Suggestion.mk "dish" dishes;
         Suggestion.mk "experience" (take 3 (find_all store "experience"))]
    ∧ sublist dishes (find_all store "dish")
    ∧ (length (take 3 (find_all store "experience")) ≤ 3)%nat.
Proof.
  intros (store & dishes & -> & Hsel & ->)%concierge_inv.
  exists store, dishes. split; [done|]. split; [done|]. split.
  - destruct (Preference.dietary pref) as [[|t ts]|].
    + injection Hsel as <-. apply sublist_take.
    + by eapply select_dishes_sublist.
    + injection Hsel as <-. apply sublist_take.
  - rewrite length_take. lia.
Qed.

Lemma concierge_response_shape_witness :
  ∃ store dishes,
    Some seeded_menu = Some store
    ∧ [Suggestion.mk "dish" [quantum_mousse]; Suggestion.mk "experience" []]
      = [Suggestion.mk "dish" dishes;
         Suggestion.mk "experience" (take 3 (find_all store "experience"))]
    ∧ sublist dishes (find_all store "dish")
    ∧ (length (take 3 (find_all store "experience")) ≤ 3)%nat.
Proof.
  refine (concierge_response_shape ascii_lower (Some seeded_menu) no_fish
            (ConciergeResponse.mk "Welcome to the AR Hotel Universe!"
               [Suggestion.mk "dish" [quantum_mousse];
                Suggestion.mk "experience" []]) _).
  vm_compute. reflexivity.
Defined.

Lemma spoken_suffix (language language' : option string) :
  spoken language = spoken language' →
  match language with
  | Some (String c l) => ", " +:+ String c l
  | _ => ""
  end
  = match language' with
    | Some (String c l) => ", " +:+ String c l
    | _ => ""
    end.
Proof.
  unfold spoken.
  destruct language as [[|c l]|], language' as [[|c' l']|];
    intros; simplify_eq; done.
Qed.

(** X8: the concierge reads only dietary and language: mood, budget_level
    and sleep_time never change its outcome, an empty dietary list behaves
    like an absent one, and an empty language like an absent one. *)
Theorem concierge_reads_dietary_and_language_only (lower : string → string)
    (db : option database) (pref pref' : Preference.t) :
  restricting (Preference.dietary pref) = restricting (Preference.dietary pref') →
  spoken (Preference.language pref) = spoken (Preference.language pref') →
  concierge lower db pref = concierge lower db pref'.
Proof.
  unfold concierge, restricting. intros Hd Hl%spoken_suffix.
  destruct db as [store|]; [|done]. rewrite Hl.
  destruct (Preference.dietary pref) as [[|t ts]|],
    (Preference.dietary pref') as [[|t' ts']|]; simplify_eq/=; done.
Qed.

Lemma concierge_reads_dietary_and_language_only_witness :
  concierge ascii_lower (Some seeded_menu)
    (Preference.mk (Some []) (Some "calm") (Some "low") (Some "") None)
  = concierge ascii_lower (Some seeded_menu)
      (Preference.mk None (Some "romantic") None None (Some "23:00")).
Proof.
  exact (concierge_reads_dietary_and_language_only ascii_lower
           (Some seeded_menu)
           (Preference.mk (Some []) (Some "calm") (Some "low") (Some "") None)
           (Preference.mk None (Some "romantic") None None (Some "23:00"))
           eq_refl eq_refl).
Defined.

(** X9: the dietary terms act as a set of lower-cased terms: two dietary
    lists with the same lower-cased terms, in any order, multiplicity and
    letter case, give the same outcome. *)
Theorem dietary_terms_act_as_a_set (lower : string → string)
    (db : option database) (pref pref' : Preference.t)
    (dietary dietary' : list string) :
  Preference.dietary pref = Some dietary →
  Preference.dietary pref' = Some dietary' →
  (∀ t, t ∈ lower <$> dietary ↔ t ∈ lower <$> dietary') →
  spoken (Preference.language pref) = spoken (Preference.language pref') →
  concierge lower db pref = concierge lower db pref'.
Proof.
  intros Hd Hd' Hsame Hl.
  assert (Hset : (list_to_set (lower <$> dietary) : gset string)
                 = list_to_set (lower <$> dietary')).
  { apply set_eq. intros t. by rewrite !elem_of_list_to_set. }
  assert (Hnil : dietary = [] ↔ dietary' = []).
  { split; intros ->.
    - destruct dietary' as [|t ts]; [done|].
      specialize (Hsame (lower t)). simpl in Hsame.
      exfalso. eapply elem_of_nil, Hsame. left.
    - destruct dietary as [|t ts]; [done|].
      specialize (Hsame (lower t)). simpl in Hsame.
      exfalso. eapply elem_of_nil, Hsame. left. }
  apply spoken_suffix in Hl.
  unfold concierge. rewrite Hd, Hd'. destruct db as [store|]; [|done].
  rewrite Hl.
  destruct dietary as [|t ts], dietary' as [|t' ts'].
  - done.
  - discriminate (proj1 Hnil eq_refl).
  - discriminate (proj2 Hnil eq_refl).
  - by rewrite Hset.
Qed.

Lemma dietary_terms_act_as_a_set_witness :
  concierge ascii_lower (Some seeded_menu)
    (Preference.mk (Some ["Fish"; "SOY"]) None None None None)
  = concierge ascii_lower (Some seeded_menu)
      (Preference.mk (Some ["soy"; "fish"; "FISH"]) None None None None).
Proof.
  refine (dietary_terms_act_as_a_set ascii_lower (Some seeded_menu)
            (Preference.mk (Some ["Fish"; "SOY"]) None None None None)
            (Preference.mk (Some ["soy"; "fish"; "FISH"]) None None None None)
            ["Fish"; "SOY"] ["soy"; "fish"; "FISH"] eq_refl eq_refl _ eq_refl).
  intros t. change (t ∈ ["fish"; "soy"] ↔ t ∈ ["soy"; "fish"; "fish"]).
  rewrite !elem_of_cons, !elem_of_nil. tauto.
Defined.

(** X10: with a non-empty dietary list, a stored dish whose allergens
    field holds a value that cannot be iterated (null, a number, a boolean,
    an object id) makes the concierge raise TypeError, when the dishes
    stored before it conform to the schema. *)
Theorem malformed_allergens_raise (lower : string → string)
    (store : database) (pref : Preference.t) (t : string) (ts : list string)
    (before after : list document) (d : document) (v : value) :
  Preference.dietary pref = Some (t :: ts) →
  find_all store "dish" = (before ++ d :: after)%list →
  Forall (λ d, is_Some (allergens_of d)) before →
  d !! "allergens" = Some v →
  not_iterable v →
  concierge lower (Some store) pref = Raises TypeError.
Proof.
  intros Hpref Hmenu Hbefore Hd Hv. unfold concierge. rewrite Hpref, Hmenu.
  assert (select_dishes lower (list_to_set (lower <$> t :: ts))
            (before ++ d :: after)%list = Raises TypeError) as ->; [|done].
  clear Hmenu. induction Hbefore as [|b rest [allergens Hb] _ IH].
  - simpl. rewrite Hd. simpl. by destruct v.
  - cbn [app select_dishes]. rewrite (allergens_of_iterate _ _ Hb).
    cbn [mbind outcome_bind].
    rewrite (any_avoided_spec lower (t :: ts)). cbn [mbind outcome_bind].
    by rewrite IH.
Qed.

Lemma malformed_allergens_witness :
  concierge ascii_lower (Some broken_menu) no_fish = Raises TypeError.
Proof.
  refine (malformed_allergens_raise ascii_lower broken_menu no_fish "FISH" []
            (Dish_document <$> dishes) [] unreadable_dish VNull
            eq_refl _ _ _ I).
  - vm_compute. reflexivity.
  - repeat constructor; eexists; vm_compute; reflexivity.
  - vm_compute. reflexivity.
Defined.

(** ** More on seeding *)

Lemma collection_of_inj k1 k2 : collection_of k1 = collection_of k2 → k1 = k2.
Proof. by destruct k1, k2. Qed.

Lemma find_all_insert_ne (db : database) name name' docs :
  name ≠ name' → find_all (<[name := docs]> db) name' = find_all db name'.
Proof. intros Hne. unfold find_all. by rewrite lookup_insert_ne. Qed.

Lemma count_documents_insert_ne (db : database) name name' docs :
  name ≠ name' →
  count_documents (<[name := docs]> db) name' = count_documents db name'.
Proof. intros Hne. unfold count_documents. by rewrite find_all_insert_ne. Qed.

(** X11: a seed call on a configured database only ever appends to its own
    collection: the documents already stored stay in place, the collection
    grows by exactly the number the call reports as inserted (none, or the
    whole fixture list), and every other collection is untouched. *)
Theorem seed_only_appends_to_its_collection (k : kind) (store : database) :
  ∃ store' added,
    seed k (Some store)
    = (Returns (SeedResponse.mk (Z.of_nat (length added))), Some store')
    ∧ (added = [] ∨ added = fixtures k)
    ∧ find_all store' (collection_of k)
      = (find_all store (collection_of k) ++ added)%list
    ∧ count_documents store' (collection_of k)
      = count_documents store (collection_of k) + Z.of_nat (length added)
    ∧ ∀ name, name ≠ collection_of k → store' !! name = store !! name.
Proof.
  rewrite seed_some. destruct (0 <? _).
  - exists store, []. rewrite app_nil_r. simpl. repeat split; auto. lia.
  - eexists _, (fixtures k). split; [done|]. split; [auto|].
    rewrite find_all_insert. split; [done|]. split.
    + unfold count_documents. rewrite find_all_insert, length_app. lia.
    + intros name Hne. by rewrite lookup_insert_ne.
Qed.

(** X12: seed calls of different kinds do not interfere: what a seed call
    answers does not depend on an earlier seed of another kind, and seeding
    two kinds in either order leaves the same database. *)
Theorem seeds_of_different_kinds_commute (k1 k2 : kind) (store : database) :
  k1 ≠ k2 →
  (seed k2 (seed k1 (Some store)).2).1 = (seed k2 (Some store)).1
  ∧ (seed k2 (seed k1 (Some store)).2).2 = (seed k1 (seed k2 (Some store)).2).2.
Proof.
  intros Hne.
  assert (Hc : collection_of k1 ≠ collection_of k2)
    by (intros ?%collection_of_inj; done).
  rewrite (seed_some k1 store), (seed_some k2 store).
  destruct (0 <? count_documents store (collection_of k1)) eqn:H1,
    (0 <? count_documents store (collection_of k2)) eqn:H2;
    cbn [fst snd]; rewrite !seed_some;
    rewrite ?count_documents_insert_ne, ?find_all_insert_ne, ?H1, ?H2 by done;
    cbn [fst snd]; try done.
  split; [done|]. f_equal. by apply insert_insert_ne.
Qed.

Lemma seeds_commute_witness :
  (seed DishKind (seed RoomKind (Some ∅)).2).1 = (seed DishKind (Some ∅)).1
  ∧ (seed DishKind (seed RoomKind (Some ∅)).2).2
    = (seed RoomKind (seed DishKind (Some ∅)).2).2.
Proof.
  refine (seeds_of_different_kinds_commute RoomKind DishKind ∅ _).
  discriminate.
Defined.

Lemma strings_of_str_list (l : list string) : strings_of (VStr <$> l) = Some l.
Proof.
  induction l as [|s l IH]; [done|].
  rewrite fmap_cons. cbn [strings_of]. by rewrite IH.
Qed.

(** A dish stored from a [Dish] model conforms to the schema. *)
Lemma Dish_document_allergens (d : Dish.t) :
  allergens_of (Dish_document d) = Some (Dish.allergens d).
Proof.
  unfold allergens_of, Dish_document.
  rewrite !lookup_insert_ne by done. rewrite lookup_insert_eq.
  apply strings_of_str_list.
Qed.

(** X13: after seeding the dishes into an empty dish collection, the
    concierge returns for every preference (the seeded dishes conform to the
    schema), its dish items are a sublist of the seeded dishes, and the
    experiences are read from the untouched experience collection. *)
Theorem concierge_returns_after_seeding (lower : string → string)
    (store : database) (pref : Preference.t) :
  count_documents store "dish" = 0 →
  ∃ resp suggested,
    concierge lower (seed_dishes (Some store)).2 pref = Returns resp
    ∧ ConciergeResponse.suggestions resp
      = [Suggestion.mk "dish" suggested;
         Suggestion.mk "experience" (take 3 (find_all store "experience"))]
    ∧ sublist suggested (Dish_document <$> dishes).
Proof.
  intros Hempty.
  change (seed_dishes (Some store)) with (seed DishKind (Some store)).
  rewrite seed_some. cbn [collection_of fixtures]. rewrite Hempty.
  cbn [Z.ltb Z.compare snd].
  assert (find_all store "dish" = []) as ->.
  { unfold count_documents in Hempty.
    destruct (find_all store "dish"); [done|simpl in Hempty; lia]. }
  rewrite app_nil_l. unfold concierge.
  rewrite find_all_insert, find_all_insert_ne by done.
  assert (Hconf : Forall (λ d, is_Some (allergens_of d))
                    (Dish_document <$> dishes)).
  { apply Forall_fmap, Forall_forall. intros d _. simpl.
    rewrite Dish_document_allergens. by eexists. }
  destruct (Preference.dietary pref) as [[|t ts]|].
  - simpl. eexists _, _. split; [done|]. split; [done|]. apply sublist_take.
  - pose proof (select_dishes_spec lower (t :: ts) _ Hconf) as Hsel.
    rewrite Hsel. simpl. eexists _, _. split; [done|]. split; [done|].
    by eapply select_dishes_sublist.
  - simpl. eexists _, _. split; [done|]. split; [done|]. apply sublist_take.
Qed.

Lemma concierge_returns_after_seeding_witness :
  ∃ resp suggested,
    concierge ascii_lower (seed_dishes (Some ∅)).2 no_fish = Returns resp
    ∧ ConciergeResponse.suggestions resp
      = [Suggestion.mk "dish" suggested;
         Suggestion.mk "experience" (take 3 (find_all ∅ "experience"))]
    ∧ sublist suggested (Dish_document <$> dishes).
Proof.
  refine (concierge_returns_after_seeding ascii_lower ∅ no_fish _).
  reflexivity.
Defined.

(** ** The content listings and the diagnostics *)

(** X14: the listings drop falsy query parameters: an empty view, a zero
    capacity and an empty category give the same call of get_documents as
    an absent parameter; and without a configured database each listing
    raises the 500 "Database not configured" without calling
    get_documents. *)
Theorem falsy_query_parameters_are_dropped
    (get_documents : database → string → query → outcome (list document))
    (db : option database) (view : option string) (capacity : option Z)
    (category : option string) :
  list_rooms get_documents db (Some "") capacity
  = list_rooms get_documents db None capacity
  ∧ list_rooms get_documents db view (Some 0)
    = list_rooms get_documents db view None
  ∧ list_menu get_documents db (Some "") = list_menu get_documents db None
  ∧ list_experiences get_documents db (Some "")
    = list_experiences get_documents db None
  ∧ list_rooms get_documents None view capacity = not_configured
  ∧ list_menu get_documents None category = not_configured
  ∧ list_experiences get_documents None category = not_configured.
Proof. repeat split; reflexivity. Qed.

(** X15: the diagnostics report "Connected" exactly when a database handle
    exists, even if listing the collections raises (the collections then
    stay empty); they list at most ten collections, the first ten names the
    driver returns; and DATABASE_URL counts as set only when it holds a
    non-empty string. *)
Theorem test_database_report
    (list_collection_names : database → list string + string)
    (environ : gmap string string) (db : option database) :
  (TestResponse.connection_status
     (test_database list_collection_names environ db) = "Connected"
   ↔ is_Some db)
  ∧ (length (TestResponse.collections
               (test_database list_collection_names environ db)) ≤ 10)%nat
  ∧ (∀ store names,
       db = Some store → list_collection_names store = inl names →
       TestResponse.collections
         (test_database list_collection_names environ db) = take 10 names
       ∧ TestResponse.database
           (test_database list_collection_names environ db)
         = "✅ Connected & Working")
  ∧ (∀ store text,
       db = Some store → list_collection_names store = inr text →
       TestResponse.collections
         (test_database list_collection_names environ db) = []
       ∧ TestResponse.connection_status
           (test_database list_collection_names environ db) = "Connected")
  ∧ (TestResponse.database_url
       (test_database list_collection_names environ db) = "✅ Set"
     ↔ ∃ c v, environ !! "DATABASE_URL" = Some (String c v)).
Proof.
  split; [|split; [|split; [|split]]].
  - unfold test_database. destruct db as [store|].
    + destruct (list_collection_names store); simpl; split; eauto.
    + simpl. split; [discriminate|]. by intros [? ?].
  - unfold test_database. destruct db as [store|]; [|simpl; lia].
    destruct (list_collection_names store); simpl; [|lia].
    rewrite length_take. lia.
  - intros store names -> Hnames. unfold test_database. by rewrite Hnames.
  - intros store text -> Htext. unfold test_database. by rewrite Htext.
  - assert (TestResponse.database_url
              (test_database list_collection_names environ db)
            = env_flag environ "DATABASE_URL") as ->.
    { unfold test_database. destruct db as [store|]; [|done].
      by destruct (list_collection_names store). }
    unfold env_flag.
    destruct (environ !! "DATABASE_URL") as [[|c v]|]; split;
      try discriminate; eauto; by intros (? & ? & ?).
Qed.

Lemma float_of_int_returns_inv n x :
  float_of_int n = Returns x → Z.abs n < 2 ^ 1024 - 2 ^ 970.
Proof.
  intros Hx. destruct (Z.lt_ge_cases (Z.abs n) (2 ^ 1024 - 2 ^ 970)); [done|].
  by rewrite float_of_int_raises in Hx.
Qed.

Lemma datetime_sub_returns_inv d2 d1 delta :
  datetime.sub d2 d1 = Returns delta → same_awareness d1 d2.
Proof.
  unfold datetime.sub, datetime.utcoffset, same_awareness.
  destruct (datetime.tzinfo d2), (datetime.tzinfo d1); try discriminate;
    intros _; split; done.
Qed.

(** X16: with a configured database, a request is quoted exactly when both
    dates parse, the two datetimes are both naive or both aware, and the
    addon cost fits a float; every other request makes the handler raise. *)
Theorem quote_is_returned_iff (store : database) (req : BookingRequest.t) :
  (∃ r, booking_quote (Some store) req = Returns r)
  ↔ ∃ d1 d2,
      datetime.fromisoformat (BookingRequest.check_in req) = Some d1
      ∧ datetime.fromisoformat (BookingRequest.check_out req) = Some d2
      ∧ same_awareness d1 d2
      ∧ Z.abs (int_sum (Addon.price <$> priced (BookingRequest.addons req)))
        < 2 ^ 1024 - 2 ^ 970.
Proof.
  split.
  - intros [r (d1 & d2 & delta & stay & extras & _ & H1 & H2 & Hsub & _ & He & _)
              %booking_quote_inv].
    exists d1, d2. repeat split; try done.
    + by apply datetime_sub_returns_inv in Hsub as [? ?].
    + by apply datetime_sub_returns_inv in Hsub as [? ?].
    + by eapply float_of_int_returns_inv.
  - intros (d1 & d2 & H1 & H2 & Haware & Hsum).
    by eapply booking_quote_returns.
Qed.
